(** * Trip costing, emissions and fleet analytics: a shallow embedding

    The TypeScript sources embedded here are
    - [src/utils/getCarCost.ts]               (module [CarCost]),
    - [src/components/GoogleMapsRouting.tsx]  (modules [Routing] and
                                               [RoutePlanner]),
    - the dashboard page                      (modules [Dashboard] and
                                               [Controls]),
    - [src/app/api/save-trip/route.ts]        (module [SaveTrip]).

    JavaScript values are modelled as follows.
    - A [number] is [NaN], an infinity, or an exact rational: the special
      values and the rules of arithmetic on them follow ECMAScript, while the
      binary64 rounding of finite results, overflow to an infinity and the
      sign of zero are not modelled.  A property proved here is therefore
      stated either as an equation between the expressions of the code, as
      an order or a NaN that rounding preserves, or for whole numbers small
      enough to be exact in binary64.
    - A string is a [string] of bytes, the UTF-8 encoding of the JavaScript
      string.  The class [\d] is ASCII as in JavaScript; [\s] and the white
      space of [parseFloat] are ASCII white space and the white space of
      Unicode in its UTF-8 encoding; [toLowerCase] acts on the ASCII range,
      and the properties that depend on it are stated for ASCII names.
    - An object used as a table is an association list of its own
      properties; reading it by a key ([get]) also finds the members that
      every object inherits from [Object.prototype].
    - The local time of the host is given by its offsets from UTC, which may
      change with the time (daylight saving). *)

From Stdlib Require Import ZArith QArith Qround Qreduction Qabs.
From Stdlib Require Import Bool List String Ascii DecimalString DecimalPos.
From Stdlib Require Import Lia Lqa.
Import ListNotations.

(* ================================================================= *)
(** ** JavaScript numbers *)

Module JS.

Inductive number : Type :=
| NaN
| PInf
| NInf
| Fin (q : Q).

(** Finite results are kept in lowest terms, so that equal numbers are
    equal terms. *)
Definition fin (q : Q) : number := Fin (Qred q).
Arguments fin q%_Q.

Definition zero : number := Fin 0.

(** The sign of a number: [Gt] positive, [Lt] negative, [Eq] zero (or NaN). *)
Definition sign (x : number) : comparison :=
  match x with
  | NaN => Eq
  | PInf => Gt
  | NInf => Lt
  | Fin q => (q ?= 0)%Q
  end.

Definition sign_mul (a b : comparison) : comparison :=
  match a, b with
  | Eq, _ | _, Eq => Eq
  | Gt, Gt | Lt, Lt => Gt
  | _, _ => Lt
  end.

(** An infinity of the given sign; an undetermined sign gives NaN. *)
Definition inf_of (c : comparison) : number :=
  match c with
  | Gt => PInf
  | Lt => NInf
  | Eq => NaN
  end.

Definition neg (x : number) : number :=
  match x with
  | NaN => NaN
  | PInf => NInf
  | NInf => PInf
  | Fin q => fin (- q)
  end.

(** [x + y] *)
Definition add (x y : number) : number :=
  match x, y with
  | NaN, _ | _, NaN => NaN
  | PInf, NInf | NInf, PInf => NaN
  | PInf, _ | _, PInf => PInf
  | NInf, _ | _, NInf => NInf
  | Fin a, Fin b => fin (a + b)
  end.

(** [x * y]: an infinity times zero is NaN. *)
Definition mul (x y : number) : number :=
  match x, y with
  | NaN, _ | _, NaN => NaN
  | Fin a, Fin b => fin (a * b)
  | _, _ => inf_of (sign_mul (sign x) (sign y))
  end.

(** [x / y]: a non-zero number over zero is an infinity, [0 / 0] is NaN. *)
Definition div (x y : number) : number :=
  match x, y with
  | NaN, _ | _, NaN => NaN
  | Fin a, Fin b =>
      if Qeq_bool b 0 then inf_of (sign x) else fin (a / b)
  | Fin _, _ => zero
  | _, Fin b => inf_of (sign_mul (sign x) (if Qeq_bool b 0 then Gt else sign y))
  | _, _ => NaN
  end.

(** The order of two numbers; [None] when either is NaN. *)
Definition compare (x y : number) : option comparison :=
  match x, y with
  | NaN, _ | _, NaN => None
  | PInf, PInf | NInf, NInf => Some Eq
  | PInf, _ | _, NInf => Some Gt
  | NInf, _ | _, PInf => Some Lt
  | Fin a, Fin b => Some (a ?= b)%Q
  end.

(** [x < y], [x <= y], [x > y], [x >= y], [x === y] *)
Definition ltb (x y : number) : bool :=
  match compare x y with Some Lt => true | _ => false end.
Definition leb (x y : number) : bool :=
  match compare x y with Some Lt | Some Eq => true | _ => false end.
Definition gtb (x y : number) : bool := ltb y x.
Definition geb (x y : number) : bool := leb y x.
Definition eqb (x y : number) : bool :=
  match compare x y with Some Eq => true | _ => false end.

(** [Number.isNaN(x)] *)
Definition isNaN (x : number) : bool :=
  match x with NaN => true | _ => false end.

(** [ToBoolean(x)]: NaN and zero are falsy. *)
Definition truthy (x : number) : bool :=
  match x with
  | NaN => false
  | Fin q => negb (Qeq_bool q 0)
  | _ => true
  end.

(** [x || y] on numbers *)
Definition or_else (x y : number) : number := if truthy x then x else y.

(** [Math.round(x)]: the nearest integer, a tie going up. *)
Definition Math_round (x : number) : number :=
  match x with
  | Fin q => fin (inject_Z (Qfloor (q + (1 # 2))))
  | _ => x
  end.

(** [Math.ceil(x)] *)
Definition Math_ceil (x : number) : number :=
  match x with
  | Fin q => fin (inject_Z (Qceiling q))
  | _ => x
  end.

Definition of_Z (z : Z) : number := Fin (inject_Z z).

End JS.

Export JS.

Declare Scope js_scope.
Delimit Scope js_scope with js.
Bind Scope js_scope with number.
Notation "x + y" := (JS.add x y) : js_scope.
Notation "x * y" := (JS.mul x y) : js_scope.
Notation "x / y" := (JS.div x y) : js_scope.
Notation "x <? y" := (JS.ltb x y) : js_scope.
Notation "x <=? y" := (JS.leb x y) : js_scope.
Notation "x >? y" := (JS.gtb x y) : js_scope.
Notation "x >=? y" := (JS.geb x y) : js_scope.
Notation "x < y" := (JS.ltb x y = true) : js_scope.
Notation "x <= y" := (JS.leb x y = true) : js_scope.
Notation "x > y" := (JS.gtb x y = true) : js_scope.
Notation "x >= y" := (JS.geb x y = true) : js_scope.
Notation "x <= y <= z" := (JS.leb x y = true /\ JS.leb y z = true) : js_scope.
Notation "x <= y < z" := (JS.leb x y = true /\ JS.ltb y z = true) : js_scope.
Notation "x < y <= z" := (JS.ltb x y = true /\ JS.leb y z = true) : js_scope.

(* ================================================================= *)
(** ** JavaScript strings *)

Module Str.

Open Scope string_scope.
Open Scope char_scope.

Definition code (c : ascii) : nat := nat_of_ascii c.

(** [\d] *)
Definition isDigit (c : ascii) : bool :=
  (48 <=? code c)%nat && (code c <=? 57)%nat.

(** [[\d.]] *)
Definition isDigitOrDot (c : ascii) : bool :=
  isDigit c || Ascii.eqb c ".".

(** The white space of the ASCII range: space, tab, line feed, vertical
    tab, form feed and carriage return. *)
Definition isSpace (c : ascii) : bool :=
  (Nat.eqb (code c) 32) || ((9 <=? code c)%nat && (code c <=? 13)%nat).

(** The white space beyond ASCII, in UTF-8: U+00A0 in two bytes, and in
    three bytes U+1680, U+2000 to U+200A, U+2028, U+2029, U+202F, U+205F,
    U+3000 and U+FEFF. *)
Definition isSpace2 (a b : ascii) : bool :=
  Nat.eqb (code a) 194 && Nat.eqb (code b) 160.

Definition isSpace3 (a b c : ascii) : bool :=
  (Nat.eqb (code a) 225 && Nat.eqb (code b) 154 && Nat.eqb (code c) 128)
  || (Nat.eqb (code a) 226 && Nat.eqb (code b) 128
      && (((128 <=? code c)%nat && (code c <=? 138)%nat)
          || Nat.eqb (code c) 168 || Nat.eqb (code c) 169
          || Nat.eqb (code c) 175))
  || (Nat.eqb (code a) 226 && Nat.eqb (code b) 129 && Nat.eqb (code c) 159)
  || (Nat.eqb (code a) 227 && Nat.eqb (code b) 128 && Nat.eqb (code c) 128)
  || (Nat.eqb (code a) 239 && Nat.eqb (code b) 187 && Nat.eqb (code c) 191).

Definition lowerChar (c : ascii) : ascii :=
  if ((65 <=? code c)%nat && (code c <=? 90)%nat)%bool
  then ascii_of_nat (code c + 32)
  else c.

(** [s.toLowerCase()] *)
Fixpoint toLowerCase (s : string) : string :=
  match s with
  | EmptyString => EmptyString
  | String c r => String (lowerChar c) (toLowerCase r)
  end.

Fixpoint startsWith (p s : string) : bool :=
  match p, s with
  | EmptyString, _ => true
  | String a p', String b s' => Ascii.eqb a b && startsWith p' s'
  | String _ _, EmptyString => false
  end.

(** [s.includes(sub)] *)
Fixpoint includes (sub s : string) : bool :=
  startsWith sub s ||
  match s with
  | EmptyString => false
  | String _ r => includes sub r
  end.

Definition isEmpty (s : string) : bool :=
  match s with EmptyString => true | _ => false end.

(** [\s*] at the start of [s], and the white space that [parseFloat]
    skips: what follows the white space. *)
Fixpoint skipSpace (s : string) : string :=
  match s with
  | EmptyString => EmptyString
  | String a r =>
      if isSpace a then skipSpace r
      else
        match r with
        | String b r2 =>
            if isSpace2 a b then skipSpace r2
            else
              match r2 with
              | String c r3 => if isSpace3 a b c then skipSpace r3 else s
              | EmptyString => s
              end
        | EmptyString => s
        end
  end.

(** The longest prefix of [s] within the class [p], and what follows it. *)
Fixpoint span (p : ascii -> bool) (s : string) : string * string :=
  match s with
  | EmptyString => (EmptyString, EmptyString)
  | String c r =>
      if p c then let '(a, b) := span p r in (String c a, b)
      else (EmptyString, s)
  end.

(** The value of a string of decimal digits, read left to right from [acc]. *)
Fixpoint digitsValue (acc : Z) (s : string) : Z :=
  match s with
  | EmptyString => acc
  | String c r => digitsValue (10 * acc + (Z.of_nat (code c) - 48)) r
  end.

(** The first match of a regular expression of the shape [(C+)K], where [C]
    is a character class and the continuation [K] cannot begin with a
    character of [C]: the capture is then a whole maximal run of [C], the
    leftmost one that [K] follows.  [run] is the run being read. *)
Fixpoint matchRun (p : ascii -> bool) (k : string -> bool)
                  (run : string) (s : string) : option string :=
  match s with
  | EmptyString =>
      if negb (isEmpty run) && k EmptyString then Some run else None
  | String c r =>
      if p c then matchRun p k (run ++ String c EmptyString) r
      else if negb (isEmpty run) && k s then Some run
      else matchRun p k EmptyString r
  end.

(** [parseFloat(s)]: skip leading white space, then read the longest prefix
    that is a decimal literal: an optional sign followed by [Infinity] or by
    digits with an optional fraction and an optional exponent. *)
Definition parseExponent (s : string) : Z :=
  match s with
  | String c r =>
      if Ascii.eqb c "e" || Ascii.eqb c "E" then
        let '(sgn, r') :=
          match r with
          | String "-" t => (-1, t)
          | String "+" t => (1, t)
          | _ => (1, r)
          end%Z in
        let '(ds, _) := span isDigit r' in
        if isEmpty ds then 0%Z else (sgn * digitsValue 0 ds)%Z
      else 0%Z
  | EmptyString => 0%Z
  end.

Definition parseUnsigned (s : string) : number :=
  if startsWith "Infinity" s then PInf else
  let '(ip, r1) := span isDigit s in
  let '(fp, r2) :=
    match r1 with
    | String "." t => span isDigit t
    | _ => (EmptyString, r1)
    end in
  if isEmpty ip && isEmpty fp then NaN else
  let m := digitsValue 0 (ip ++ fp) in
  let e := (parseExponent r2 - Z.of_nat (String.length fp))%Z in
  fin (inject_Z m * (10 ^ e)).

Definition parseFloat (s : string) : number :=
  match skipSpace s with
  | String "-" r => neg (parseUnsigned r)
  | String "+" r => parseUnsigned r
  | t => parseUnsigned t
  end.

(** [parseInt(s)] for a string of decimal digits, as the captures of [(\d+)]
    are: the whole number that the digits denote (exact in binary64 below
    2^53, that is for up to 15 digits). *)
Definition parseInt (s : string) : number := of_Z (digitsValue 0 s).

(** A signed integer in decimal. *)
Definition ofZ (z : Z) : string := NilZero.string_of_int (Z.to_int z).

End Str.

Export Str.
Open Scope string_scope.

(** Number::toString and [toFixed] print the decimal digits of a number.
    For an integer below 10^21 in magnitude these are the digits of the
    integer (binary64 holds every integer up to 2^53, and prints a larger
    one by its shortest digits, which read back as the same number); the
    rendering of any other finite value depends on its binary64 digits and
    is left to the host ([ToString_other]). *)
Module Fmt.
Section Fmt.

Variable ToString_other : Q -> string.

Definition isInteger (q : Q) : bool := Qeq_bool q (inject_Z (Qfloor q)).

Definition below1e21 (q : Q) : bool :=
  match (Qabs q ?= inject_Z (10 ^ 21))%Q with Lt => true | _ => false end.

(** [`${x}`] *)
Definition ToString (x : number) : string :=
  match x with
  | NaN => "NaN"
  | PInf => "Infinity"
  | NInf => "-Infinity"
  | Fin q =>
      if isInteger q && below1e21 q then ofZ (Qfloor q)
      else ToString_other q
  end.

(** [x.toFixed(1)]: with [n] the integer nearest to [10 * |x|] (the larger
    one on a tie), the digits of [n] with a point before the last one.  The
    digits are those of the value of [x]: where [x] is a product or a
    quotient that binary64 rounds, a value next to a tie can fall on either
    side of it. *)
Definition toFixed1 (x : number) : string :=
  match x with
  | Fin q =>
      if below1e21 q then
        let n := Qfloor (Qabs q * 10 + (1 # 2)) in
        (if Qlt_le_dec q 0 then "-" else "")
          ++ ofZ (n / 10) ++ "." ++ ofZ (n mod 10)
      else ToString x
  | _ => ToString x
  end.

End Fmt.
End Fmt.

(* ================================================================= *)
(** ** [src/utils/getCarCost.ts] *)

Module CarCost.
Local Open Scope js_scope.

Inductive StringOrNumber : Type :=
| AsString (s : string)
| AsNumber (n : number).

Record Trip : Type := {
  carModel : string;
  distance : StringOrNumber
}.

Record Car : Type := {
  brand : string;
  model : string;
  fuelType : string;
  efficiency : string
}.

(** [interface FuelPrices { [fuelType: string]: number }] *)
Definition FuelPrices : Type := list (string * number).

(** The own property [key] of a table: the value of the first entry under
    [key], if any. *)
Fixpoint lookup {A : Type} (key : string) (table : list (string * A)) : option A :=
  match table with
  | [] => None
  | (k, v) :: rest => if String.eqb k key then Some v else lookup key rest
  end.

(** The names of the members of [Object.prototype], which every object
    written as a literal or read from JSON inherits.  Their values are
    functions (for [__proto__], the prototype itself). *)
Definition objectPrototype : list string :=
  [ "constructor"; "hasOwnProperty"; "isPrototypeOf"; "propertyIsEnumerable";
    "toLocaleString"; "toString"; "valueOf"; "__proto__";
    "__defineGetter__"; "__defineSetter__";
    "__lookupGetter__"; "__lookupSetter__" ].

(** [table[key]]: an own property, a member inherited from
    [Object.prototype], or [undefined]. *)
Inductive Property (A : Type) : Type :=
| Own (v : A)
| Inherited
| Absent.
Arguments Own {A} v.
Arguments Inherited {A}.
Arguments Absent {A}.

Definition get {A : Type} (key : string) (table : list (string * A))
  : Property A :=
  match lookup key table with
  | Some v => Own v
  | None =>
      if existsb (String.eqb key) objectPrototype then Inherited else Absent
  end.

(** The value of [prices[key] ?? 0]: a number, or one of the functions and
    objects of [Object.prototype], which is truthy and, as a number, NaN. *)
Inductive Value : Type :=
| Num (n : number)
| Obj.

Definition ToBoolean (v : Value) : bool :=
  match v with
  | Num n => truthy n
  | Obj => true
  end.

Definition ToNumber (v : Value) : number :=
  match v with
  | Num n => n
  | Obj => NaN
  end.


(** [eff.match(/([\d.]+)/)], then [parseFloat] of the capture or NaN. *)
Definition parseEfficiencyValue (eff : string) : number :=
  match matchRun isDigitOrDot (fun _ => true) "" eff with
  | Some m => parseFloat m
  | None => NaN
  end.

Definition isElectric (fuelType : string) : bool :=
  String.eqb fuelType "Battery Electric Vehicle".

(** [`${c.brand} ${c.model}`] *)
Definition fullName (c : Car) : string := brand c ++ " " ++ model c.

Definition findCar (cars : list Car) (name : string) : option Car :=
  find (fun c => String.eqb (toLowerCase (fullName c)) (toLowerCase name)) cars.

Definition getCarCost (trip : Trip) (cars : list Car) (prices : FuelPrices) : number :=
  let distanceKm :=
    match distance trip with
    | AsString s => parseFloat s
    | AsNumber n => n
    end in
  if negb (truthy distanceKm) || isNaN distanceKm then zero else
  match findCar cars (carModel trip) with
  | None => zero
  | Some car =>
      let eff := parseEfficiencyValue (efficiency car) in
      if negb (truthy eff) then zero else
      let unitPrice :=
        match get (fuelType car) prices with
        | Own p => Num p
        | Inherited => Obj
        | Absent => Num zero
        end in
      if negb (ToBoolean unitPrice) then zero else
      let tripCost := (distanceKm * (eff / fin 100) * ToNumber unitPrice)%js in
      (Math_round (tripCost * fin 100) / fin 100)%js
  end.

Definition getTotalCost (trips : list Trip) (cars : list Car) (prices : FuelPrices) : number :=
  fold_left (fun sum t => (sum + getCarCost t cars prices)%js) trips zero.

Definition getCostPerKm (totalCost totalDistanceKm : number) : number :=
  if (totalDistanceKm >? zero)%js then (totalCost / totalDistanceKm)%js else zero.

End CarCost.

(* ================================================================= *)
(** ** [src/components/GoogleMapsRouting.tsx] *)

Module Routing.
Import CarCost.
Local Open Scope js_scope.



Section Routing.

Variable ToString_other : Q -> string.

(** What the host makes of a market segment that names a member of
    [Object.prototype]: the fuel type is then read from a function or an
    object of the host, which may give anything, or throw ([None]). *)
Variable inheritedSegment : string -> string -> number -> option string.

Let ToString := Fmt.ToString ToString_other.
Let toFixed1 := Fmt.toFixed1 ToString_other.


(** [transitTypes.some(type => ...)] *)
Definition hasTrainService (transitTypes : list string) : bool :=
  existsb (fun type =>
             includes "train" (toLowerCase type)
             || includes "rail" (toLowerCase type))
          transitTypes.

Definition calculatePublicTransportCost (distance durationMinutes : number)
                                        (transitTypes : list string) : string :=
  if hasTrainService transitTypes then
    let trainCost := (distance * fin 1.5)%js in
    ToString (Math_round trainCost) ++ " CZK"
  else if (durationMinutes <? fin 30)%js then "30 CZK"
  else if (durationMinutes <=? fin 90)%js then "40 CZK"
  else "120 CZK".


End Routing.
End Routing.

(* ================================================================= *)
(** ** JavaScript dates *)

(** A [Date] holds a time value: milliseconds since the epoch, or NaN
    ([None]) for an invalid date.  The calendar functions are those of
    ECMAScript (the proleptic Gregorian calendar); the offsets of local time
    are those of the host. *)
Module Date.

Local Open Scope Z_scope.

Definition msPerDay : Z := 86400000.
Definition maxTime : Z := 8640000000000000.

Definition Day (t : Z) : Z := t / msPerDay.
Definition TimeWithinDay (t : Z) : Z := t mod msPerDay.

Definition isLeap (y : Z) : bool :=
  (y mod 4 =? 0) && (negb (y mod 100 =? 0) || (y mod 400 =? 0)).

Definition DaysInYear (y : Z) : Z := if isLeap y then 366 else 365.

Definition DayFromYear (y : Z) : Z :=
  365 * (y - 1970) + (y - 1969) / 4 - (y - 1901) / 100 + (y - 1601) / 400.

(** The year of a day number: the largest [y] with [DayFromYear y <= d],
    found from an estimate that is off by at most one. *)
Definition YearFromDay (d : Z) : Z :=
  let y0 := 1970 + (400 * d) / 146097 in
  if DayFromYear (y0 + 1) <=? d then y0 + 1
  else if d <? DayFromYear y0 then y0 - 1
  else y0.

Definition YearFromTime (t : Z) : Z := YearFromDay (Day t).

Definition DayWithinYear (t : Z) : Z := Day t - DayFromYear (YearFromTime t).

Definition InLeapYear (t : Z) : Z := if isLeap (YearFromTime t) then 1 else 0.

(** The number of days of the year before month [m] (0 = January). *)
Definition monthStart (m leap : Z) : Z :=
  match m with
  | 0 => 0
  | 1 => 31
  | 2 => 59 + leap
  | 3 => 90 + leap
  | 4 => 120 + leap
  | 5 => 151 + leap
  | 6 => 181 + leap
  | 7 => 212 + leap
  | 8 => 243 + leap
  | 9 => 273 + leap
  | 10 => 304 + leap
  | _ => 334 + leap
  end.

Definition MonthFromTime (t : Z) : Z :=
  let d := DayWithinYear t in
  let leap := InLeapYear t in
  if d <? 31 then 0
  else if d <? 59 + leap then 1
  else if d <? 90 + leap then 2
  else if d <? 120 + leap then 3
  else if d <? 151 + leap then 4
  else if d <? 181 + leap then 5
  else if d <? 212 + leap then 6
  else if d <? 243 + leap then 7
  else if d <? 273 + leap then 8
  else if d <? 304 + leap then 9
  else if d <? 334 + leap then 10
  else 11.

Definition DateFromTime (t : Z) : Z :=
  DayWithinYear t - monthStart (MonthFromTime t) (InLeapYear t) + 1.

(** [MakeDay(year, month, date)]: the day number of the first of the month,
    plus [date - 1]. *)
Definition MakeDay (year month date : Z) : Z :=
  let ym := year + month / 12 in
  let mn := month mod 12 in
  DayFromYear ym + monthStart mn (if isLeap ym then 1 else 0) + date - 1.

Definition MakeDate (day time : Z) : Z := day * msPerDay + time.

Definition TimeClip (t : Z) : option Z :=
  if Z.abs t <=? maxTime then Some t else None.

(** Numbers that are integers or NaN, and the operators used on them. *)
Definition sub (x y : option Z) : option Z :=
  match x, y with
  | Some a, Some b => Some (a - b)
  | _, _ => None
  end.

Definition eqb (x y : option Z) : bool :=
  match x, y with
  | Some a, Some b => a =? b
  | _, _ => false
  end.

Definition leb (x y : option Z) : bool :=
  match x, y with
  | Some a, Some b => a <=? b
  | _, _ => false
  end.

Definition geb (x y : option Z) : bool := leb y x.

(** The time zone of the host: the offset of local time from UTC in
    milliseconds, at a time ([offsetAt]) and at a local time
    ([offsetOfLocal], where the host settles the local times that a change
    of the clocks skips or repeats). *)
Record TimeZone : Type := {
  offsetAt : Z -> Z;
  offsetOfLocal : Z -> Z
}.

(** A time zone whose offset never changes. *)
Definition fixedZone (offset : Z) : TimeZone :=
  {| offsetAt := fun _ => offset; offsetOfLocal := fun _ => offset |}.

Section Local.

Variable tz : TimeZone.

Definition LocalTime (t : Z) : Z := t + offsetAt tz t.
Definition UTC (t : Z) : Z := t - offsetOfLocal tz t.

Definition Date : Type := option Z.

Definition getTime (d : Date) : option Z := d.
Definition getFullYear (d : Date) : option Z :=
  option_map (fun t => YearFromTime (LocalTime t)) d.
Definition getMonth (d : Date) : option Z :=
  option_map (fun t => MonthFromTime (LocalTime t)) d.
Definition getDate (d : Date) : option Z :=
  option_map (fun t => DateFromTime (LocalTime t)) d.

(** [new Date(year, month, date)]: a year from 0 to 99 stands for 1900 plus
    that year. *)
Definition newDate (year month date : option Z) : Date :=
  match year, month, date with
  | Some y, Some m, Some dt =>
      let yr := if (0 <=? y) && (y <=? 99) then 1900 + y else y in
      TimeClip (UTC (MakeDate (MakeDay yr m dt) 0))
  | _, _, _ => None
  end.

(** [d.setDate(date)], returning the date as modified. *)
Definition setDate (d : Date) (date : option Z) : Date :=
  match d with
  | None => None
  | Some t0 =>
      match date with
      | None => None
      | Some dt =>
          let t := LocalTime t0 in
          TimeClip (UTC (MakeDate (MakeDay (YearFromTime t) (MonthFromTime t) dt)
                                  (TimeWithinDay t)))
      end
  end.

End Local.
End Date.

(* ================================================================= *)
(** ** The dashboard page *)

Module TripRecord.
Record t : Type := {
  userId : string;
  userDepartment : string;
  userFuelType : string;
  userMarketSegment : string;
  carBrand : string;
  carModel : string;
  carFuelType : string;
  carEfficiency : string;
  distance : string;
  duration : string;
  co2Emissions : string;
  transportType : string;
  cost : string;
  startLocation : string;
  destination : string;
  scheduledDateTime : string;
  tripTimestamp : string
}.
End TripRecord.

Module FilterState.
Inductive Period : Type := Today | Week | Month | Year.

Definition label (p : Period) : string :=
  match p with
  | Today => "Today"
  | Week => "Week"
  | Month => "Month"
  | Year => "Year"
  end.

Record t : Type := {
  period : Period;
  department : string;
  driverName : string;
  carModel : string
}.
End FilterState.

Module Dashboard.
Local Open Scope js_scope.

Section Filter.

(** The host: its time zone, its clock ([new Date()]) and its reading of a
    time stamp ([new Date(string)]). *)
Variable tz : Date.TimeZone.
Variable now : Z.
Variable Date_parse : string -> option Z.

Let Date := Date.Date.

Definition isInPeriod (tripDate : Date) (period : string) : bool :=
  let now : Date := Some now in
  let today := Date.newDate tz (Date.getFullYear tz now) (Date.getMonth tz now)
                            (Date.getDate tz now) in
  if String.eqb period "Today" then
    let tripToday := Date.newDate tz (Date.getFullYear tz tripDate)
                                  (Date.getMonth tz tripDate)
                                  (Date.getDate tz tripDate) in
    Date.eqb (Date.getTime tripToday) (Date.getTime today)
  else if String.eqb period "Week" then
    let weekAgo := Date.setDate tz today
                     (Date.sub (Date.getDate tz today) (Some 7%Z)) in
    Date.geb tripDate weekAgo && Date.leb tripDate now
  else if String.eqb period "Month" then
    Date.eqb (Date.getMonth tz tripDate) (Date.getMonth tz now)
    && Date.eqb (Date.getFullYear tz tripDate) (Date.getFullYear tz now)
  else if String.eqb period "Year" then
    Date.eqb (Date.getFullYear tz tripDate) (Date.getFullYear tz now)
  else true.

(** The predicate of [trips.filter(trip => ...)]; an empty string is falsy. *)
Definition keepTrip (filters : FilterState.t) (trip : TripRecord.t) : bool :=
  let tripDate := Date_parse (TripRecord.tripTimestamp trip) in
  if negb (isInPeriod tripDate (FilterState.label (FilterState.period filters)))
  then false
  else if negb (isEmpty (FilterState.department filters))
          && negb (String.eqb (TripRecord.userDepartment trip)
                              (FilterState.department filters))
  then false
  else if negb (isEmpty (FilterState.driverName filters))
          && negb (String.eqb (TripRecord.userId trip)
                              (FilterState.driverName filters))
  then false
  else if negb (isEmpty (FilterState.carModel filters))
          && negb (String.eqb (TripRecord.carModel trip)
                              (FilterState.carModel filters))
  then false
  else true.

Definition filteredTrips (trips : list TripRecord.t) (filters : FilterState.t)
  : list TripRecord.t :=
  filter (keepTrip filters) trips.

End Filter.

Definition parseDistance (distance : string) : number :=
  or_else (parseFloat distance) zero.

(** [/(\d+)h/] and [/(\d+)\s*min/] *)
Definition parseDuration (duration : string) : number :=
  let hourMatch := matchRun isDigit (startsWith "h") "" duration in
  let minMatch :=
    matchRun isDigit (fun s => startsWith "min" (skipSpace s))
             "" duration in
  let hours := match hourMatch with Some m => parseInt m | None => zero end in
  let minutes := match minMatch with Some m => parseInt m | None => zero end in
  (hours * fin 60 + minutes) * fin 60.

(** [/([\d.]+)/] *)
Definition parseCO2 (co2 : string) : number :=
  match matchRun isDigitOrDot (fun _ => true) "" co2 with
  | Some m =>
      let value := parseFloat m in
      if includes "kg" co2 then value else value / fin 1000
  | None => zero
  end.

Definition parseCost (cost : string) : number :=
  match matchRun isDigitOrDot (fun _ => true) "" cost with
  | Some m =>
      let value := parseFloat m in
      if includes "$" cost then value * fin 23 else value
  | None => zero
  end.

(** [/([\d.]+)L/] *)
Definition getFuelConsumption (carModel carEfficiency : string) : number :=
  match matchRun isDigitOrDot (startsWith "L") "" carEfficiency with
  | Some m => parseFloat m
  | None => fin 6.5
  end.

Record Metrics : Type := {
  totalDistance : number;
  totalFuelLiters : number;
  avgFuelPer100km : number;
  totalDurationSeconds : number;
  totalCostCZK : number;
  totalCO2kg : number;
  avgCO2PerKm : number;
  avgSpeed : number;
  costPerKm : number;
  treesToOffset : number;
  carbonFootprintRating : string;
  fuelEfficiencyRating : string;
  emissionLevel : string;
  emissionColor : option string
}.

(** [trips.reduce((sum, trip) => sum + f(trip), 0)] *)
Definition sumOver (f : TripRecord.t -> number) (trips : list TripRecord.t) : number :=
  fold_left (fun sum trip => sum + f trip) trips zero.

Definition metrics (filteredTrips : list TripRecord.t) : Metrics :=
  if Nat.eqb (List.length filteredTrips) 0 then
    {| totalDistance := zero;
       totalFuelLiters := zero;
       avgFuelPer100km := zero;
       totalDurationSeconds := zero;
       totalCostCZK := zero;
       totalCO2kg := zero;
       avgCO2PerKm := zero;
       avgSpeed := zero;
       costPerKm := zero;
       treesToOffset := zero;
       carbonFootprintRating := "No Data";
       fuelEfficiencyRating := "No Data";
       emissionLevel := "No Data";
       emissionColor := None |}
  else
    let totalDistance :=
      sumOver (fun trip => parseDistance (TripRecord.distance trip)) filteredTrips in
    let totalDurationSeconds :=
      sumOver (fun trip => parseDuration (TripRecord.duration trip)) filteredTrips in
    let totalCO2kg :=
      sumOver (fun trip => parseCO2 (TripRecord.co2Emissions trip)) filteredTrips in
    let totalCostCZK :=
      sumOver (fun trip => parseCost (TripRecord.cost trip)) filteredTrips in
    let totalFuelLiters :=
      fold_left
        (fun sum trip =>
           let distance := parseDistance (TripRecord.distance trip) in
           let fuelPer100km :=
             getFuelConsumption (TripRecord.carModel trip)
                                (TripRecord.carEfficiency trip) in
           sum + distance * fuelPer100km / fin 100)
        filteredTrips zero in
    let avgFuelPer100km :=
      if totalDistance >? zero then (totalFuelLiters / totalDistance) * fin 100
      else zero in
    let avgCO2PerKm :=
      if totalDistance >? zero then (totalCO2kg * fin 1000) / totalDistance
      else zero in
    let avgSpeed :=
      if totalDurationSeconds >? zero
      then totalDistance / (totalDurationSeconds / fin 3600)
      else zero in
    let costPerKm :=
      if totalDistance >? zero then totalCostCZK / totalDistance else zero in
    let treesToOffset := Math_ceil (totalCO2kg / fin 21) in
    let carbonFootprintRating :=
      if totalCO2kg <? fin 100 then "Low"
      else if totalCO2kg <? fin 500 then "Moderate"
      else "High" in
    let fuelEfficiencyRating :=
      if avgFuelPer100km <=? fin 6 then "Good"
      else if avgFuelPer100km <=? fin 8 then "Moderate"
      else "Poor" in
    let '(emissionLevel, emissionColor) :=
      if avgCO2PerKm <=? fin 50 then ("Excellent", "green")
      else if avgCO2PerKm <=? fin 100 then ("Good", "lightgreen")
      else if avgCO2PerKm <=? fin 150 then ("Moderate", "yellow")
      else if avgCO2PerKm <=? fin 200 then ("High", "orange")
      else ("Very High", "red") in
    {| totalDistance := totalDistance;
       totalFuelLiters := totalFuelLiters;
       avgFuelPer100km := avgFuelPer100km;
       totalDurationSeconds := totalDurationSeconds;
       totalCostCZK := totalCostCZK;
       totalCO2kg := totalCO2kg;
       avgCO2PerKm := avgCO2PerKm;
       avgSpeed := avgSpeed;
       costPerKm := costPerKm;
       treesToOffset := treesToOffset;
       carbonFootprintRating := carbonFootprintRating;
       fuelEfficiencyRating := fuelEfficiencyRating;
       emissionLevel := emissionLevel;
       emissionColor := Some emissionColor |}.

End Dashboard.

(** [aggregate(trips, criteria)]: the metrics of the filtered trips. *)
Definition aggregate (tz : Date.TimeZone) (now : Z)
    (Date_parse : string -> option Z)
    (trips : list TripRecord.t) (criteria : FilterState.t) : Dashboard.Metrics :=
  Dashboard.metrics (Dashboard.filteredTrips tz now Date_parse trips criteria).

(* ================================================================= *)
(** ** Further arithmetic of numbers *)

Module JSMath.

(** [Math.floor(x)] *)
Definition Math_floor (x : number) : number :=
  match x with
  | Fin q => fin (inject_Z (Qfloor q))
  | _ => x
  end.

(** The integer part of a rational, rounding towards zero. *)
Definition truncate (q : Q) : Z :=
  if Qlt_le_dec q 0 then Qceiling q else Qfloor q.

(** [x % y]: the remainder of the division truncated towards zero; NaN for
    an infinite dividend or a zero divisor, the dividend for an infinite
    divisor. *)
Definition rem (x y : number) : number :=
  match x, y with
  | NaN, _ | _, NaN => NaN
  | PInf, _ | NInf, _ => NaN
  | Fin a, Fin b =>
      if Qeq_bool b 0 then NaN
      else fin (a - b * inject_Z (truncate (a / b)))
  | Fin _, _ => x
  end.

End JSMath.

Export JSMath.

(* ================================================================= *)
(** ** JavaScript arrays of strings *)

Module Arr.

(** [xs.includes(x)] *)
Definition includes (x : string) (xs : list string) : bool :=
  existsb (String.eqb x) xs.

(** [Array.from(new Set(xs))]: a set keeps the order in which its elements
    were first added. *)
Definition unique (xs : list string) : list string :=
  fold_left (fun seen x => if includes x seen then seen else (seen ++ [x])%list)
            xs [].

End Arr.

(* ================================================================= *)
(** ** [src/components/GoogleMapsRouting.tsx]: routes *)

Module RoutePlanner.
Local Open Scope js_scope.

(** The part of a directions result that the component reads: the steps of
    the first leg of the first route, each with its travel mode and, for a
    transit step, the vehicle of its line.  Every field that the component
    tests for presence is optional. *)
Inductive TravelMode : Type := DRIVING | TRANSIT | WALKING | BICYCLING.

(** [google.maps.VehicleType]: the five kinds that the component names, and
    any other. *)
Inductive VehicleType : Type :=
| BUS | RAIL | SUBWAY | TRAM | TROLLEYBUS
| OtherVehicle (name : string).

Record TransitVehicle : Type := { type : VehicleType }.
Record TransitLine : Type := { vehicle : option TransitVehicle }.
Record TransitDetails : Type := { line : option TransitLine }.
Record Step : Type := {
  travel_mode : TravelMode;
  transit : option TransitDetails
}.
Record Leg : Type := { steps : option (list Step) }.

(** The [switch] of [getTransitTypesFromResponse]. *)
Definition transitTypeOf (vehicleType : VehicleType) : string :=
  match vehicleType with
  | BUS => "Bus"
  | RAIL => "Train"
  | SUBWAY => "Subway"
  | TRAM => "Tram"
  | TROLLEYBUS => "Trolley"
  | OtherVehicle _ => "Transit"
  end.

(** [leg] is [response.routes[0].legs[0]]. *)
Definition getTransitTypesFromResponse (leg : option Leg) : list string :=
  match leg with
  | None => []
  | Some leg =>
      match steps leg with
      | None => []
      | Some steps =>
          let transitTypes :=
            fold_left
              (fun transitTypes step =>
                 match travel_mode step, transit step with
                 | TRANSIT, Some transit =>
                     match line transit with
                     | Some line =>
                         match vehicle line with
                         | Some vehicle =>
                             (transitTypes ++ [transitTypeOf (type vehicle)])%list
                         | None => transitTypes
                         end
                     | None => transitTypes
                     end
                 | _, _ => transitTypes
                 end)
              steps [] in
          Arr.unique transitTypes
      end
  end.

Section RoutePlanner.

Variable ToString_other : Q -> string.

Let ToString := Fmt.ToString ToString_other.

Definition formatDuration (minutes : number) : string :=
  if minutes <? fin 60 then ToString minutes ++ " minutes"
  else
    let hours := Math_floor (minutes / fin 60) in
    let remainingMinutes := rem minutes (fin 60) in
    if JS.eqb remainingMinutes zero
    then ToString hours ++ " hour" ++ (if hours >? fin 1 then "s" else "")
    else ToString hours ++ "h " ++ ToString remainingMinutes ++ " min".

(** [calculateRoute]: the distance label of a leg, from its length in
    metres, and its duration in minutes, from its duration in seconds. *)
Definition distKm (distanceValue : number) : string :=
  Fmt.toFixed1 ToString_other (distanceValue / fin 1000).

Definition durMin (durationValue : number) : number :=
  Math_ceil (durationValue / fin 60).

End RoutePlanner.
End RoutePlanner.

(* ================================================================= *)
(** ** The controls of the dashboard page *)

Module Controls.
Import FilterState.
Local Open Scope js_scope.

Definition inDepartment (department : string) (trip : TripRecord.t) : bool :=
  String.eqb (TripRecord.userDepartment trip) department.

Definition ofDriver (driverName : string) (trip : TripRecord.t) : bool :=
  String.eqb (TripRecord.userId trip) driverName.

Definition uniqueDepartments (trips : list TripRecord.t) : list string :=
  let departments := map TripRecord.userDepartment trips in
  Arr.unique departments.

Definition uniqueCarModels (trips : list TripRecord.t) (filters : FilterState.t)
  : list string :=
  let relevantTrips := trips in
  let relevantTrips :=
    if negb (isEmpty (department filters))
    then filter (inDepartment (department filters)) relevantTrips
    else relevantTrips in
  let relevantTrips :=
    if negb (isEmpty (driverName filters))
    then filter (ofDriver (driverName filters)) relevantTrips
    else relevantTrips in
  let models := map TripRecord.carModel relevantTrips in
  Arr.unique models.

Definition uniqueUserIds (trips : list TripRecord.t) (filters : FilterState.t)
  : list string :=
  let relevantTrips :=
    if negb (isEmpty (department filters))
    then filter (inDepartment (department filters)) trips
    else trips in
  let userIds := map TripRecord.userId relevantTrips in
  Arr.unique userIds.

(** The effect that runs when the department changes: the new filter
    state. *)
Definition resetOnDepartment (trips : list TripRecord.t) (filters : FilterState.t)
  : FilterState.t :=
  if negb (isEmpty (department filters)) then
    let deptTrips := filter (inDepartment (department filters)) trips in
    let deptUserIds := map TripRecord.userId deptTrips in
    let deptUniqueUserIds := Arr.unique deptUserIds in
    if negb (isEmpty (driverName filters))
       && negb (Arr.includes (driverName filters) deptUniqueUserIds)
    then {| period := period filters;
            department := department filters;
            driverName := "";
            carModel := "" |}
    else filters
  else filters.

(** The effect that runs when the driver changes. *)
Definition resetOnDriver (trips : list TripRecord.t) (filters : FilterState.t)
  : FilterState.t :=
  if negb (isEmpty (driverName filters)) && negb (isEmpty (carModel filters))
  then
    let userTrips := filter (ofDriver (driverName filters)) trips in
    let userCarModels := map TripRecord.carModel userTrips in
    let userUniqueCarModels := Arr.unique userCarModels in
    if negb (Arr.includes (carModel filters) userUniqueCarModels)
    then {| period := period filters;
            department := department filters;
            driverName := driverName filters;
            carModel := "" |}
    else filters
  else filters.

Section Controls.

Variable ToString_other : Q -> string.

Let ToString := Fmt.ToString ToString_other.

Definition formatDuration (seconds : number) : string :=
  let hours := Math_floor (seconds / fin 3600) in
  let minutes := Math_floor (rem seconds (fin 3600) / fin 60) in
  if hours >? zero then ToString hours ++ "h " ++ ToString minutes ++ "m"
  else ToString minutes ++ "m".

End Controls.
End Controls.

(* ================================================================= *)
(** ** [src/app/api/save-trip/route.ts] *)

(** The handler reads and writes two files of the data directory.  A file
    is modelled by what it holds: [last-trip.json] a trip, [all-trips.json]
    what [JSON.parse] makes of its text.  The text written by
    [JSON.stringify] is taken to parse back to the value written, and the
    file system to carry out every call. *)
Module SaveTrip.

Inductive Parsed : Type :=
| Unparsable                          (* [JSON.parse] throws *)
| NotAnArray                          (* a value without [push] *)
| Trips (allTrips : list TripRecord.t).

Record Files : Type := {
  dataDir : bool;                     (* the directory exists *)
  lastTripFile : option TripRecord.t;
  allTripsFile : option Parsed
}.

Record Response : Type := {
  success : bool;
  status : Z;
  tripId : option string
}.

Definition setTimestamp (tripData : TripRecord.t) (stamp : string)
  : TripRecord.t :=
  {| TripRecord.userId := TripRecord.userId tripData;
     TripRecord.userDepartment := TripRecord.userDepartment tripData;
     TripRecord.userFuelType := TripRecord.userFuelType tripData;
     TripRecord.userMarketSegment := TripRecord.userMarketSegment tripData;
     TripRecord.carBrand := TripRecord.carBrand tripData;
     TripRecord.carModel := TripRecord.carModel tripData;
     TripRecord.carFuelType := TripRecord.carFuelType tripData;
     TripRecord.carEfficiency := TripRecord.carEfficiency tripData;
     TripRecord.distance := TripRecord.distance tripData;
     TripRecord.duration := TripRecord.duration tripData;
     TripRecord.co2Emissions := TripRecord.co2Emissions tripData;
     TripRecord.transportType := TripRecord.transportType tripData;
     TripRecord.cost := TripRecord.cost tripData;
     TripRecord.startLocation := TripRecord.startLocation tripData;
     TripRecord.destination := TripRecord.destination tripData;
     TripRecord.scheduledDateTime := TripRecord.scheduledDateTime tripData;
     TripRecord.tripTimestamp := stamp |}.

Definition failure : Response :=
  {| success := false; status := 500; tripId := None |}.

(** [POST]: [body] is the request body as [request.json()] reads it ([None]
    when that throws), [isoNow] is [new Date().toISOString()]. *)
Definition POST (isoNow : string) (body : option TripRecord.t) (files : Files)
  : Files * Response :=
  match body with
  | None => (files, failure)
  | Some tripData =>
      let tripData := setTimestamp tripData isoNow in
      let files :=
        {| dataDir := true;
           lastTripFile := Some tripData;
           allTripsFile := allTripsFile files |} in
      let allTrips :=
        match allTripsFile files with
        | Some (Trips allTrips) => Some allTrips
        | Some Unparsable => Some []
        | Some NotAnArray => None
        | None => Some []
        end in
      match allTrips with
      | None => (files, failure)
      | Some allTrips =>
          ({| dataDir := true;
              lastTripFile := lastTripFile files;
              allTripsFile := Some (Trips (allTrips ++ [tripData])%list) |},
           {| success := true; status := 200;
              tripId := Some (TripRecord.tripTimestamp tripData) |})
      end
  end.

End SaveTrip.

(* ================================================================= *)
(** * The vocabulary of the properties *)

Section Vocabulary.
Import Date Dashboard CarCost.
Local Open Scope string_scope.

(** Every character of [s] is in the class [p]. *)
Fixpoint allChars (p : ascii -> bool) (s : string) : bool :=
  match s with
  | EmptyString => true
  | String c r => p c && allChars p r
  end.

(** [s] begins with a character of the class [p]. *)
Definition headIn (p : ascii -> bool) (s : string) : bool :=
  match s with
  | String c _ => p c
  | EmptyString => false
  end.

(** The characters that are neither a digit nor a dot. *)
Definition notDigitOrDot (c : ascii) : bool := negb (isDigitOrDot c).

(** A list of vehicle kinds denotes rail service when one of its elements,
    in lower case, contains "train" or "rail". *)
Definition denotesRail (transitTypes : list string) : Prop :=
  exists type, In type transitTypes
    /\ (includes "train" (toLowerCase type) = true
        \/ includes "rail" (toLowerCase type) = true).



(** The classification step of [metrics], as functions of the metric
    classified. *)
Local Open Scope js_scope.

Definition rateCarbonFootprint (totalCO2kg : number) : string :=
  if totalCO2kg <? fin 100 then "Low"
  else if totalCO2kg <? fin 500 then "Moderate"
  else "High".

Definition rateFuelEfficiency (avgFuelPer100km : number) : string :=
  if avgFuelPer100km <=? fin 6 then "Good"
  else if avgFuelPer100km <=? fin 8 then "Moderate"
  else "Poor".

Definition rateEmission (avgCO2PerKm : number) : string :=
  if avgCO2PerKm <=? fin 50 then "Excellent"
  else if avgCO2PerKm <=? fin 100 then "Good"
  else if avgCO2PerKm <=? fin 150 then "Moderate"
  else if avgCO2PerKm <=? fin 200 then "High"
  else "Very High".

Local Close Scope js_scope.
Local Open Scope Z_scope.

(** The time [t] is on the local calendar day of [now]. *)
Definition sameDay (tz : TimeZone) (now t : Z) : Prop :=
  YearFromTime (LocalTime tz t) = YearFromTime (LocalTime tz now)
  /\ MonthFromTime (LocalTime tz t) = MonthFromTime (LocalTime tz now)
  /\ DateFromTime (LocalTime tz t) = DateFromTime (LocalTime tz now).

(** The local midnight at which the calendar day of [t] begins. *)
Definition midnight (tz : TimeZone) (t : Z) : Z :=
  MakeDate (Day (LocalTime tz t)) 0.

(** The time at which the calendar day seven days before that of [now]
    begins. *)
Definition weekStart (tz : TimeZone) (now : Z) : Z :=
  UTC tz (MakeDate (Day (LocalTime tz now) - 7) 0).

(** The window of a period, for a trip recorded at time [t]: the same
    calendar day as [now]; from the start of the calendar day seven days
    before today through [now]; the same calendar month and year; the same
    calendar year. *)
Definition inWindow (tz : TimeZone) (now : Z) (period : FilterState.Period)
                    (t : Z) : Prop :=
  match period with
  | FilterState.Today => sameDay tz now t
  | FilterState.Week => weekStart tz now <= t /\ t <= now
  | FilterState.Month =>
      MonthFromTime (LocalTime tz t) = MonthFromTime (LocalTime tz now)
      /\ YearFromTime (LocalTime tz t) = YearFromTime (LocalTime tz now)
  | FilterState.Year =>
      YearFromTime (LocalTime tz t) = YearFromTime (LocalTime tz now)
  end.

Local Close Scope Z_scope.

(** ** Sample data *)


(** A trip record all of whose fields are empty. *)
Definition blankTrip : TripRecord.t :=
  {| TripRecord.userId := ""; TripRecord.userDepartment := "";
     TripRecord.userFuelType := ""; TripRecord.userMarketSegment := "";
     TripRecord.carBrand := ""; TripRecord.carModel := "";
     TripRecord.carFuelType := ""; TripRecord.carEfficiency := "";
     TripRecord.distance := ""; TripRecord.duration := "";
     TripRecord.co2Emissions := ""; TripRecord.transportType := "";
     TripRecord.cost := ""; TripRecord.startLocation := "";
     TripRecord.destination := ""; TripRecord.scheduledDateTime := "";
     TripRecord.tripTimestamp := "" |}.

(** A trip record with the given distance, duration, CO2, cost and
    efficiency labels. *)
Definition sampleTrip (distance duration co2Emissions cost carEfficiency : string)
  : TripRecord.t :=
  {| TripRecord.userId := "user1"; TripRecord.userDepartment := "Sales";
     TripRecord.userFuelType := "Petrol";
     TripRecord.userMarketSegment := "Small car";
     TripRecord.carBrand := "Ford"; TripRecord.carModel := "Fiesta";
     TripRecord.carFuelType := "Petrol";
     TripRecord.carEfficiency := carEfficiency;
     TripRecord.distance := distance; TripRecord.duration := duration;
     TripRecord.co2Emissions := co2Emissions;
     TripRecord.transportType := "By car";
     TripRecord.cost := cost; TripRecord.startLocation := "";
     TripRecord.destination := ""; TripRecord.scheduledDateTime := "";
     TripRecord.tripTimestamp := "2025-05-31T07:00:08.085Z" |}.

(** A host on UTC whose clock shows 2025-06-07 12:00, reading the time
    stamp of the sample trip (2025-05-31 07:00:08.085 UTC). *)
Definition sampleParse (s : string) : option Z :=
  if String.eqb s "2025-05-31T07:00:08.085Z" then Some 1748674808085%Z
  else None.

Definition sampleNow : Z := 1749297600000.

(** A host in central Europe in 2025: one hour ahead of UTC, and two hours
    from 30 March, 01:00 UTC (the local times from 03:00 on), to
    26 October, 01:00 UTC (the local times before 03:00). *)
Definition centralEurope : TimeZone :=
  {| offsetAt := fun t =>
       if ((1743296400000 <=? t) && (t <? 1761440400000))%Z
       then 7200000%Z else 3600000%Z;
     offsetOfLocal := fun t =>
       if ((1743303600000 <=? t) && (t <? 1761447600000))%Z
       then 7200000%Z else 3600000%Z |}.

(** The clock of that host at 12:00 on 2 April 2025 (10:00 UTC). *)
Definition aprilNow : Z := 1743588000000.

Definition weekFilter : FilterState.t :=
  {| FilterState.period := FilterState.Week;
     FilterState.department := "";
     FilterState.driverName := "";
     FilterState.carModel := "" |}.

End Vocabulary.

(* ================================================================= *)
(** * Further vocabulary *)

Section FurtherVocabulary.
Local Open Scope string_scope.
Local Open Scope list_scope.




(** The numeral of [n] tenths: the digits of [n] with a point before the
    last one. *)
Definition tenths (n : Z) : string :=
  ofZ (n / 10) ++ "." ++ ofZ (n mod 10).


(** A criterion admits a value when it is empty or equal to it. *)
Definition admits (criterion value : string) : Prop :=
  criterion = "" \/ value = criterion.

(** The driver has a trip with the car model in the log. *)
Definition usedBy (trips : list TripRecord.t) (driverName carModel : string)
  : Prop :=
  exists trip, In trip trips
    /\ TripRecord.userId trip = driverName
    /\ TripRecord.carModel trip = carModel.

(** A trip record of a driver of a department with a car model, its other
    fields empty. *)
Definition tripOf (userId userDepartment carModel : string) : TripRecord.t :=
  {| TripRecord.userId := userId; TripRecord.userDepartment := userDepartment;
     TripRecord.userFuelType := ""; TripRecord.userMarketSegment := "";
     TripRecord.carBrand := ""; TripRecord.carModel := carModel;
     TripRecord.carFuelType := ""; TripRecord.carEfficiency := "";
     TripRecord.distance := ""; TripRecord.duration := "";
     TripRecord.co2Emissions := ""; TripRecord.transportType := "";
     TripRecord.cost := ""; TripRecord.startLocation := "";
     TripRecord.destination := ""; TripRecord.scheduledDateTime := "";
     TripRecord.tripTimestamp := "" |}.

(** The steps of a leg, none when the leg or its steps are missing. *)
Definition stepsOf (leg : option RoutePlanner.Leg) : list RoutePlanner.Step :=
  match leg with
  | Some {| RoutePlanner.steps := Some steps |} => steps
  | _ => []
  end.

(** The vehicle type of a step: that of the line of a transit step. *)
Definition vehicleTypeOf (step : RoutePlanner.Step)
  : option RoutePlanner.VehicleType :=
  match RoutePlanner.travel_mode step, RoutePlanner.transit step with
  | RoutePlanner.TRANSIT,
    Some {| RoutePlanner.line :=
              Some {| RoutePlanner.vehicle := Some v |} |} =>
      Some (RoutePlanner.type v)
  | _, _ => None
  end.

(** A route goes by rail when one of its steps is a transit step whose
    vehicle type is RAIL. *)
Definition byRail (leg : option RoutePlanner.Leg) : Prop :=
  exists step, In step (stepsOf leg)
    /\ vehicleTypeOf step = Some RoutePlanner.RAIL.

(** The files after a sequence of requests, each with the time at which it
    is served. *)
Definition serve (requests : list (string * TripRecord.t))
                 (files : SaveTrip.Files) : SaveTrip.Files :=
  fold_left (fun files request =>
               fst (SaveTrip.POST (fst request) (Some (snd request)) files))
            requests files.

(** The record that a request adds to the log. *)
Definition logged (request : string * TripRecord.t) : TripRecord.t :=
  SaveTrip.setTimestamp (snd request) (fst request).

(** A finite number is reduced when it is in lowest terms, as every result
    of the arithmetic is. *)
Definition reduced (x : number) : Prop :=
  match x with
  | Fin q => Qred q = q
  | _ => True
  end.

End FurtherVocabulary.

(* ================================================================= *)
(** * Properties *)

(** ** The order of numbers *)

(** Reduces a goal about comparisons of numbers to rational arithmetic. *)
Ltac js_order :=
  cbv [JS.ltb JS.leb JS.gtb JS.geb JS.eqb JS.compare JS.fin JS.zero
       JS.truthy JS.isNaN] in *;
  repeat match goal with
  | H : context [Qred ?c] |- _ => rewrite (Qred_correct c) in H
  | |- context [Qred ?c] => rewrite (Qred_correct c)
  end;
  repeat match goal with
  | H : context [(?a ?= ?b)%Q] |- _ => destruct (Qcompare_spec a b)
  | |- context [(?a ?= ?b)%Q] => destruct (Qcompare_spec a b)
  end;
  try discriminate; try reflexivity; try tauto; try (exfalso; lra).

Section NumberOrder.
Local Open Scope js_scope.

Lemma leb_ltb_false x y : x <= y -> (y <? x) = false.
Proof. destruct x, y; js_order. Qed.

Lemma ltb_leb_false x y : x < y -> (y <=? x) = false.
Proof. destruct x, y; js_order. Qed.

Lemma ltb_leb x y : x < y -> x <= y.
Proof. destruct x, y; js_order. Qed.

Lemma leb_false_ltb x y z :
  isNaN y = false -> (x <=? y) = false -> x <= z -> y < x.
Proof. destruct x, y, z; js_order. Qed.

Lemma ltb_false_leb x y z :
  isNaN y = false -> (x <? y) = false -> x < z -> y <= x.
Proof. destruct x, y, z; js_order. Qed.

Lemma leb_trans x y z : x <= y -> y <= z -> x <= z.
Proof. destruct x, y, z; js_order. Qed.

Lemma ltb_leb_trans x y z : x < y -> y <= z -> x < z.
Proof. destruct x, y, z; js_order. Qed.

Lemma leb_ltb_trans x y z : x <= y -> y < z -> x < z.
Proof. destruct x, y, z; js_order. Qed.

End NumberOrder.

(* ================================================================= *)
(** ** Public transport fares *)

Section TransitFare.
Local Open Scope js_scope.

Variable ToString_other : Q -> string.

Let fare := Routing.calculatePublicTransportCost ToString_other.

Lemma hasTrainService_denotesRail transitTypes :
  Routing.hasTrainService transitTypes = true <-> denotesRail transitTypes.
Proof.
  unfold Routing.hasTrainService, denotesRail.
  rewrite existsb_exists.
  split; intros [type [Hin H]]; exists type; split; auto.
  - now apply orb_true_iff.
  - now apply orb_true_iff.
Qed.

Lemma fare_rail distance durationMinutes transitTypes :
  denotesRail transitTypes ->
  fare distance durationMinutes transitTypes
  = Fmt.ToString ToString_other (Math_round (distance * fin 1.5)) ++ " CZK".
Proof.
  intros H. apply hasTrainService_denotesRail in H.
  unfold fare, Routing.calculatePublicTransportCost. now rewrite H.
Qed.

Lemma fare_no_rail distance durationMinutes transitTypes :
  ~ denotesRail transitTypes ->
  fare distance durationMinutes transitTypes
  = if durationMinutes <? fin 30 then "30 CZK"
    else if durationMinutes <=? fin 90 then "40 CZK"
    else "120 CZK".
Proof.
  intros H. unfold fare, Routing.calculatePublicTransportCost.
  destruct (Routing.hasTrainService transitTypes) eqn:E; [|reflexivity].
  now apply hasTrainService_denotesRail in E.
Qed.

End TransitFare.

(** C2.  With a rail or train service among the vehicle kinds the fare is
    [round(distance * 1.5)] whatever the duration; without one it is 30
    below 30 minutes, 40 from 30 to 90 minutes inclusive and 120 above 90
    minutes, whatever the distance.  In particular 29 minutes cost 30, 30 and
    90 minutes cost 40, 91 minutes cost 120, and 20 km by rail cost 30 for
    every duration.  Of the vehicle kinds of a route only "Train" denotes
    rail. *)
Theorem calculatePublicTransportCost_tiers (ToString_other : Q -> string) :
  let fare := Routing.calculatePublicTransportCost ToString_other in
  (forall distance durationMinutes transitTypes,
      denotesRail transitTypes ->
      fare distance durationMinutes transitTypes
      = Fmt.ToString ToString_other (Math_round (distance * fin 1.5)%js) ++ " CZK")
  /\ (forall distance durationMinutes transitTypes,
      ~ denotesRail transitTypes ->
      ((durationMinutes < fin 30)%js ->
         fare distance durationMinutes transitTypes = "30 CZK")
      /\ ((fin 30 <= durationMinutes <= fin 90)%js ->
         fare distance durationMinutes transitTypes = "40 CZK")
      /\ ((durationMinutes > fin 90)%js ->
         fare distance durationMinutes transitTypes = "120 CZK"))
  /\ (forall distance transitTypes,
      ~ denotesRail transitTypes ->
      fare distance (fin 29) transitTypes = "30 CZK"
      /\ fare distance (fin 30) transitTypes = "40 CZK"
      /\ fare distance (fin 90) transitTypes = "40 CZK"
      /\ fare distance (fin 91) transitTypes = "120 CZK")
  /\ (forall durationMinutes transitTypes,
      denotesRail transitTypes ->
      fare (fin 20) durationMinutes transitTypes = "30 CZK")
  /\ (denotesRail ["Train"]
      /\ ~ denotesRail ["Bus"; "Subway"; "Tram"; "Trolley"; "Transit"]).
Proof.
  intros fare.
  assert (K : denotesRail ["Train"]
              /\ ~ denotesRail ["Bus"; "Subway"; "Tram"; "Trolley"; "Transit"]).
  { rewrite <- !hasTrainService_denotesRail. split; [reflexivity|discriminate]. }
  repeat split; try apply K.
  - intros. now apply fare_rail.
  - intros Hlt. unfold fare. rewrite fare_no_rail by assumption. now rewrite Hlt.
  - intros [H30 H90]. unfold fare. rewrite fare_no_rail by assumption.
    now rewrite (leb_ltb_false _ _ H30), H90.
  - intros Hgt. unfold fare. rewrite fare_no_rail by assumption.
    assert (H30 : (fin 30 <= durationMinutes)%js).
    { apply ltb_leb. eapply leb_ltb_trans; [|exact Hgt]. reflexivity. }
    now rewrite (leb_ltb_false _ _ H30), (ltb_leb_false _ _ Hgt).
  - unfold fare. now rewrite fare_no_rail.
  - unfold fare. now rewrite fare_no_rail.
  - unfold fare. now rewrite fare_no_rail.
  - unfold fare. now rewrite fare_no_rail.
  - intros. unfold fare. now rewrite fare_rail.
Qed.

(* ================================================================= *)
(** ** Fleet metrics *)

Section FleetMetrics.
Import Dashboard.
Local Open Scope js_scope.

Ltac unfold_metrics :=
  unfold metrics;
  match goal with
  | |- context [Nat.eqb (List.length (?t :: ?ts)) 0] =>
      change (Nat.eqb (List.length (t :: ts)) 0) with false
  end;
  cbv iota zeta.

(** The classification step of [metrics], read off a non-empty set. *)
Lemma metrics_ratings_eq t ts :
  let m := metrics (t :: ts) in
  carbonFootprintRating m = rateCarbonFootprint (totalCO2kg m)
  /\ fuelEfficiencyRating m = rateFuelEfficiency (avgFuelPer100km m)
  /\ emissionLevel m = rateEmission (avgCO2PerKm m).
Proof.
  intros m; subst m. unfold_metrics. unfold rateEmission.
  repeat match goal with
  | |- context [match (if ?c then _ else _) with _ => _ end] =>
      destruct c eqn:?
  end;
  cbn [carbonFootprintRating fuelEfficiencyRating emissionLevel
       totalCO2kg avgFuelPer100km avgCO2PerKm];
  repeat match goal with H : _ = _ |- _ => rewrite H end;
  repeat split.
Qed.

Ltac rate_cases x :=
  destruct x as [| | |?q]; cbv [JS.leb JS.ltb JS.compare JS.fin];
  rewrite ?Qred_correct;
  repeat match goal with
  | |- context [(?a ?= ?b)%Q] => destruct (Qcompare_spec a b)
  end;
  try (exfalso; lra);
  repeat split; try discriminate; try tauto;
  intros []; try discriminate; try tauto.

Lemma rateCarbonFootprint_cases x :
  (rateCarbonFootprint x = "Low" <-> x < fin 100)
  /\ (rateCarbonFootprint x = "Moderate" <-> fin 100 <= x < fin 500)
  /\ (rateCarbonFootprint x = "High"
      <-> ~ x < fin 100 /\ ~ fin 100 <= x < fin 500).
Proof. unfold rateCarbonFootprint. rate_cases x. Qed.

Lemma rateFuelEfficiency_cases x :
  (rateFuelEfficiency x = "Good" <-> x <= fin 6)
  /\ (rateFuelEfficiency x = "Moderate" <-> fin 6 < x <= fin 8)
  /\ (rateFuelEfficiency x = "Poor"
      <-> ~ x <= fin 6 /\ ~ fin 6 < x <= fin 8).
Proof. unfold rateFuelEfficiency. rate_cases x. Qed.

Lemma rateEmission_cases x :
  (rateEmission x = "Excellent" <-> x <= fin 50)
  /\ (rateEmission x = "Good" <-> fin 50 < x <= fin 100)
  /\ (rateEmission x = "Moderate" <-> fin 100 < x <= fin 150)
  /\ (rateEmission x = "High" <-> fin 150 < x <= fin 200)
  /\ (rateEmission x = "Very High"
      <-> ~ x <= fin 50 /\ ~ fin 50 < x <= fin 100
          /\ ~ fin 100 < x <= fin 150 /\ ~ fin 150 < x <= fin 200).
Proof. unfold rateEmission. rate_cases x. Qed.

(** No rating of a non-empty set is "No Data". *)
Lemma metrics_ratings_not_no_data t ts :
  let m := metrics (t :: ts) in
  carbonFootprintRating m <> "No Data"
  /\ fuelEfficiencyRating m <> "No Data"
  /\ emissionLevel m <> "No Data".
Proof.
  destruct (metrics_ratings_eq t ts) as (Hc & Hf & He).
  cbv zeta. rewrite Hc, He, Hf.
  unfold rateCarbonFootprint, rateFuelEfficiency, rateEmission.
  repeat split;
    repeat match goal with
    | |- context [if ?c then _ else _] => destruct c
    end; discriminate.
Qed.

(** C3.  When no trip passes the filter every numeric metric is 0 and each
    of the three ratings is "No Data"; when some trip passes, no rating is
    "No Data", even if every total is 0 (as for a single blank record). *)
Theorem aggregate_empty_is_no_data (tz : Date.TimeZone) (now : Z)
    (Date_parse : string -> option Z)
    (trips : list TripRecord.t) (criteria : FilterState.t) :
  let filtered := filteredTrips tz now Date_parse trips criteria in
  let m := aggregate tz now Date_parse trips criteria in
  (filtered = [] ->
     totalDistance m = zero /\ totalFuelLiters m = zero
     /\ avgFuelPer100km m = zero /\ totalDurationSeconds m = zero
     /\ totalCostCZK m = zero /\ totalCO2kg m = zero
     /\ avgCO2PerKm m = zero /\ avgSpeed m = zero
     /\ costPerKm m = zero /\ treesToOffset m = zero
     /\ carbonFootprintRating m = "No Data"
     /\ fuelEfficiencyRating m = "No Data"
     /\ emissionLevel m = "No Data")
  /\ (filtered <> [] ->
     carbonFootprintRating m <> "No Data"
     /\ fuelEfficiencyRating m <> "No Data"
     /\ emissionLevel m <> "No Data")
  /\ (let z := metrics [blankTrip] in
      totalDistance z = zero /\ totalFuelLiters z = zero
      /\ avgFuelPer100km z = zero /\ totalDurationSeconds z = zero
      /\ totalCostCZK z = zero /\ totalCO2kg z = zero
      /\ avgCO2PerKm z = zero /\ avgSpeed z = zero
      /\ costPerKm z = zero /\ treesToOffset z = zero
      /\ carbonFootprintRating z = "Low"
      /\ fuelEfficiencyRating z = "Good"
      /\ emissionLevel z = "Excellent").
Proof.
  intros filtered m. unfold m, aggregate. fold filtered.
  split; [|split].
  - intros ->. repeat split.
  - destruct filtered as [|t ts]; [congruence|].
    intros _. apply metrics_ratings_not_no_data.
  - vm_compute. repeat split.
Qed.

(** C4.  On a non-empty set of trips: the carbon footprint is Low below
    100 kg, Moderate from 100 to below 500, High otherwise; the fuel
    efficiency is Good up to 6 l/100 km, Moderate above 6 up to 8, Poor
    otherwise; the emission level is Excellent up to 50 g/km, Good above 50
    up to 100, Moderate above 100 up to 150, High above 150 up to 200, Very
    High otherwise.  So 50 is Excellent, 50.1 Good, 200 High and 200.1 Very
    High, as for a trip of 10 km that emitted 500 g, 501 g, 2 kg and
    2001 g. *)
Theorem metrics_classification (t : TripRecord.t) (ts : list TripRecord.t) :
  let m := metrics (t :: ts) in
  let co2 := totalCO2kg m in
  let fuel := avgFuelPer100km m in
  let perKm := avgCO2PerKm m in
  ((carbonFootprintRating m = "Low" <-> co2 < fin 100)
   /\ (carbonFootprintRating m = "Moderate" <-> fin 100 <= co2 < fin 500)
   /\ (carbonFootprintRating m = "High"
       <-> ~ co2 < fin 100 /\ ~ fin 100 <= co2 < fin 500))
  /\ ((fuelEfficiencyRating m = "Good" <-> fuel <= fin 6)
      /\ (fuelEfficiencyRating m = "Moderate" <-> fin 6 < fuel <= fin 8)
      /\ (fuelEfficiencyRating m = "Poor"
          <-> ~ fuel <= fin 6 /\ ~ fin 6 < fuel <= fin 8))
  /\ ((emissionLevel m = "Excellent" <-> perKm <= fin 50)
      /\ (emissionLevel m = "Good" <-> fin 50 < perKm <= fin 100)
      /\ (emissionLevel m = "Moderate" <-> fin 100 < perKm <= fin 150)
      /\ (emissionLevel m = "High" <-> fin 150 < perKm <= fin 200)
      /\ (emissionLevel m = "Very High"
          <-> ~ perKm <= fin 50 /\ ~ fin 50 < perKm <= fin 100
              /\ ~ fin 100 < perKm <= fin 150
              /\ ~ fin 150 < perKm <= fin 200))
  /\ ((perKm = fin 50.0 -> emissionLevel m = "Excellent")
      /\ (perKm = fin 50.1 -> emissionLevel m = "Good")
      /\ (perKm = fin 200.0 -> emissionLevel m = "High")
      /\ (perKm = fin 200.1 -> emissionLevel m = "Very High"))
  /\ (let over10km := fun co2 =>
        metrics [sampleTrip "10" "21 min" co2 "265 CZK" "6.0L/100km"] in
      (avgCO2PerKm (over10km "500g CO₂") = fin 50.0
       /\ emissionLevel (over10km "500g CO₂") = "Excellent")
      /\ (avgCO2PerKm (over10km "501g CO₂") = fin 50.1
          /\ emissionLevel (over10km "501g CO₂") = "Good")
      /\ (avgCO2PerKm (over10km "2kg CO₂") = fin 200.0
          /\ emissionLevel (over10km "2kg CO₂") = "High")
      /\ (avgCO2PerKm (over10km "2001g CO₂") = fin 200.1
          /\ emissionLevel (over10km "2001g CO₂") = "Very High")).
Proof.
  intros m co2 fuel perKm.
  destruct (metrics_ratings_eq t ts) as (Hc & Hf & He).
  fold m in Hc, Hf, He. fold co2 in Hc. fold fuel in Hf. fold perKm in He.
  rewrite Hc, Hf, He.
  split; [apply rateCarbonFootprint_cases|].
  split; [apply rateFuelEfficiency_cases|].
  split; [apply rateEmission_cases|].
  split; [repeat split; intros ->; reflexivity|].
  vm_compute. repeat split.
Qed.

(** The totals of [metrics] are sums over the trips, also on no trip. *)
Lemma metrics_totals ts :
  let m := metrics ts in
  totalDistance m
  = sumOver (fun trip => parseDistance (TripRecord.distance trip)) ts
  /\ totalDurationSeconds m
    = sumOver (fun trip => parseDuration (TripRecord.duration trip)) ts
  /\ totalCO2kg m
    = sumOver (fun trip => parseCO2 (TripRecord.co2Emissions trip)) ts
  /\ totalCostCZK m
    = sumOver (fun trip => parseCost (TripRecord.cost trip)) ts
  /\ totalFuelLiters m
    = sumOver (fun trip =>
                 parseDistance (TripRecord.distance trip)
                 * getFuelConsumption (TripRecord.carModel trip)
                                      (TripRecord.carEfficiency trip)
                 / fin 100) ts.
Proof.
  destruct ts as [|t ts]; [repeat split|].
  intros m; subst m. unfold_metrics.
  repeat match goal with
  | |- context [match (if ?c then _ else _) with _ => _ end] => destruct c
  end; repeat split.
Qed.

(** The derived metrics of [metrics], each ratio guarded by the sign of its
    denominator. *)
Lemma metrics_derived ts :
  let m := metrics ts in
  avgFuelPer100km m
  = (if totalDistance m >? zero
     then totalFuelLiters m / totalDistance m * fin 100 else zero)
  /\ avgCO2PerKm m
    = (if totalDistance m >? zero
       then totalCO2kg m * fin 1000 / totalDistance m else zero)
  /\ avgSpeed m
    = (if totalDurationSeconds m >? zero
       then totalDistance m / (totalDurationSeconds m / fin 3600) else zero)
  /\ costPerKm m
    = (if totalDistance m >? zero
       then totalCostCZK m / totalDistance m else zero)
  /\ treesToOffset m = Math_ceil (totalCO2kg m / fin 21).
Proof.
  destruct ts as [|t ts]; [repeat split|].
  intros m; subst m. unfold_metrics.
  repeat match goal with
  | |- context [match (if ?c then _ else _) with _ => _ end] => destruct c
  end; repeat split.
Qed.

(** C5, as stated, fails where a denominator is not positive.  A single
    trip of distance 0 that emitted 2 kg has [avgCO2PerKm = 0], not
    [2000 / 0]; a single trip with the distance label "-10" has
    [costPerKm = 0] and [avgFuelPer100km = 0] although its total distance is
    not 0 and the quotients are defined. *)
Lemma metrics_derived_unguarded_fails :
  (let m := metrics [sampleTrip "0" "21 min" "2kg CO₂" "265 CZK" "6.0L/100km"] in
   totalDistance m = zero
   /\ avgCO2PerKm m = zero
   /\ totalCO2kg m * fin 1000 / totalDistance m = PInf
   /\ avgCO2PerKm m <> totalCO2kg m * fin 1000 / totalDistance m)
  /\ (let m := metrics [sampleTrip "-10" "21 min" "2kg CO₂" "265 CZK" "6.0L/100km"] in
      totalDistance m = fin (-10)
      /\ costPerKm m = zero
      /\ totalCostCZK m / totalDistance m = fin (-26.5)
      /\ avgFuelPer100km m = zero
      /\ totalFuelLiters m / totalDistance m * fin 100 = fin 6).
Proof. vm_compute. repeat split; discriminate. Qed.

(** C5, amended.  The totals are sums over the trips, and from them: the
    average fuel per 100 km, the average CO2 per km and the cost per km are
    the stated quotients when the total distance is positive and 0
    otherwise; the average speed is the stated quotient when the total
    duration is positive and 0 otherwise; the trees to offset are
    [ceil(totalCO2 / 21)]. *)
Theorem metrics_derived_guarded (ts : list TripRecord.t) :
  let m := metrics ts in
  (totalDistance m
   = sumOver (fun trip => parseDistance (TripRecord.distance trip)) ts
   /\ totalDurationSeconds m
     = sumOver (fun trip => parseDuration (TripRecord.duration trip)) ts
   /\ totalCO2kg m
     = sumOver (fun trip => parseCO2 (TripRecord.co2Emissions trip)) ts
   /\ totalCostCZK m
     = sumOver (fun trip => parseCost (TripRecord.cost trip)) ts)
  /\ avgFuelPer100km m
    = (if totalDistance m >? fin 0
       then totalFuelLiters m / totalDistance m * fin 100 else fin 0)
  /\ avgCO2PerKm m
    = (if totalDistance m >? fin 0
       then totalCO2kg m * fin 1000 / totalDistance m else fin 0)
  /\ avgSpeed m
    = (if totalDurationSeconds m >? fin 0
       then totalDistance m / (totalDurationSeconds m / fin 3600) else fin 0)
  /\ costPerKm m
    = (if totalDistance m >? fin 0
       then totalCostCZK m / totalDistance m else fin 0)
  /\ treesToOffset m = Math_ceil (totalCO2kg m / fin 21).
Proof.
  intros m.
  destruct (metrics_totals ts) as (H1 & H2 & H3 & H4 & _).
  split; [now repeat split|].
  apply metrics_derived.
Qed.

End FleetMetrics.

(* ================================================================= *)
(** ** Matching a run of characters *)

Section Matching.
Local Open Scope string_scope.

Lemma append_nil_r s : s ++ "" = s.
Proof. induction s; simpl; congruence. Qed.

Lemma append_assoc a b c : (a ++ b) ++ c = a ++ (b ++ c).
Proof. induction a; simpl; congruence. Qed.

Lemma isEmpty_false s : isEmpty s = false <-> s <> "".
Proof. destruct s; simpl; split; congruence. Qed.

Lemma isEmpty_append_cons a c r : isEmpty (a ++ String c r) = false.
Proof. now destruct a. Qed.

Variable p : ascii -> bool.
Variable k : string -> bool.

Lemma matchRun_cons run c r :
  matchRun p k run (String c r)
  = if p c then matchRun p k (run ++ String c "") r
    else if negb (isEmpty run) && k (String c r) then Some run
    else matchRun p k "" r.
Proof. reflexivity. Qed.

(** A maximal run that [k] follows is matched, whatever was read before. *)
Lemma matchRun_run acc run rest :
  allChars p run = true -> headIn p rest = false ->
  isEmpty (acc ++ run) = false -> k rest = true ->
  matchRun p k acc (run ++ rest) = Some (acc ++ run).
Proof.
  revert acc. induction run as [|c run IH]; intros acc Hall Hhead Hne Hk.
  - rewrite append_nil_r in *. simpl.
    destruct rest as [|c r]; simpl in *.
    + now rewrite Hne, Hk.
    + now rewrite Hhead, Hne, Hk.
  - simpl in Hall. apply andb_true_iff in Hall as [Hc Hall].
    simpl. rewrite Hc.
    rewrite IH; auto.
    + now rewrite append_assoc.
    + rewrite append_assoc. apply isEmpty_append_cons.
Qed.

Lemma allChars_app a b :
  allChars p (a ++ b) = allChars p a && allChars p b.
Proof.
  induction a as [|c a IH]; [reflexivity|].
  simpl. now rewrite IH, andb_assoc.
Qed.

(** What is matched is a maximal run of the string that [k] follows. *)
Lemma matchRun_sound acc s run :
  allChars p acc = true -> matchRun p k acc s = Some run ->
  exists pre post,
    acc ++ s = pre ++ run ++ post
    /\ allChars p run = true /\ run <> ""
    /\ k post = true /\ headIn p post = false.
Proof.
  revert acc. induction s as [|c r IH]; intros acc Hacc H.
  - simpl in H.
    destruct (negb (isEmpty acc) && k "") eqn:E; [|discriminate].
    injection H as <-. apply andb_true_iff in E as [E1 E2].
    apply negb_true_iff, isEmpty_false in E1.
    now exists "", "".
  - rewrite matchRun_cons in H. destruct (p c) eqn:Hc.
    + apply IH in H as (pre & post & Heq & Hrest).
      * exists pre, post. split; [|exact Hrest].
        rewrite <- Heq. now rewrite append_assoc.
      * rewrite allChars_app, Hacc. simpl. now rewrite Hc.
    + destruct (negb (isEmpty acc) && k (String c r)) eqn:E.
      * injection H as <-. apply andb_true_iff in E as [E1 E2].
        apply negb_true_iff, isEmpty_false in E1.
        exists "", (String c r). repeat split; auto.
      * apply IH in H as (pre & post & Heq & Hrest); [|reflexivity].
        exists (acc ++ String c pre), post. split; [|exact Hrest].
        rewrite append_assoc. simpl in *. now rewrite Heq.
Qed.

(** Without a character of the class nothing is matched. *)
Lemma matchRun_no_class s :
  allChars (fun c => negb (p c)) s = true -> matchRun p k "" s = None.
Proof.
  induction s as [|c r IH]; [reflexivity|].
  simpl. intros H. apply andb_true_iff in H as [Hc Hall].
  apply negb_true_iff in Hc. rewrite Hc. simpl. auto.
Qed.

(** Characters outside the class before any run are skipped. *)
Lemma matchRun_skip pre s :
  allChars (fun c => negb (p c)) pre = true ->
  matchRun p k "" (pre ++ s) = matchRun p k "" s.
Proof.
  induction pre as [|c pre IH]; [reflexivity|].
  simpl. intros H. apply andb_true_iff in H as [Hc Hall].
  apply negb_true_iff in Hc. rewrite Hc. simpl. auto.
Qed.

End Matching.

Section FirstRun.
Local Open Scope string_scope.

Variable p : ascii -> bool.

Let anything := fun _ : string => true.

(** [/(C+)/] captures the first maximal run of [C]. *)
Lemma matchRun_first pre run post :
  allChars (fun c => negb (p c)) pre = true ->
  allChars p run = true -> run <> "" -> headIn p post = false ->
  matchRun p anything "" (pre ++ run ++ post) = Some run.
Proof.
  intros Hpre Hrun Hne Hpost.
  rewrite matchRun_skip by assumption.
  rewrite (matchRun_run p anything "" run post); auto.
  now apply isEmpty_false.
Qed.

(** [/(C+)/] fails exactly on the strings with no character of [C]. *)
Lemma matchRun_none acc s :
  matchRun p anything acc s = None
  <-> acc = "" /\ allChars (fun c => negb (p c)) s = true.
Proof.
  revert acc. induction s as [|c r IH]; intros acc; simpl.
  - destruct acc; simpl; split; try easy; intros []; discriminate.
  - destruct (p c) eqn:Hc; simpl.
    + rewrite IH. split; [|intros []; discriminate].
      intros [H _]. now destruct acc.
    + destruct acc; simpl.
      * rewrite IH. tauto.
      * split; [discriminate|]. intros []; discriminate.
Qed.

End FirstRun.

(** ** The litre marker of an efficiency label *)

Section LitreMarker.
Local Open Scope string_scope.
Import Dashboard.









End LitreMarker.

(* ================================================================= *)
(** ** Fuel and CO2 read from the trip log *)

Section TripLog.
Local Open Scope string_scope.
Local Open Scope js_scope.
Import Dashboard.



(** C10, as stated, fails on a label whose number is not at its start: the
    label "ca 5kg" has no leading number ([parseFloat] gives NaN), yet
    [parseCO2] gives 5, not 0. *)
Lemma parseCO2_not_leading :
  parseFloat "ca 5kg" = NaN
  /\ parseCO2 "ca 5kg" = fin 5
  /\ parseCO2 "ca 5kg" <> zero.
Proof. vm_compute. repeat split; discriminate. Qed.

(** C10, amended.  [parseCO2] reads the first run of digits and dots found
    anywhere in the label: the result is the number that run parses to when
    the label contains "kg", and that number divided by 1000 when it does
    not, so "123" is 0.123; a label with no digit and no dot gives 0. *)
Theorem parseCO2_first_run (co2 : string) :
  (forall pre run post,
      co2 = pre ++ run ++ post ->
      allChars notDigitOrDot pre = true ->
      allChars isDigitOrDot run = true -> run <> "" ->
      headIn isDigitOrDot post = false ->
      parseCO2 co2
      = if includes "kg" co2 then parseFloat run
        else parseFloat run / fin 1000)
  /\ (allChars notDigitOrDot co2 = true -> parseCO2 co2 = fin 0)
  /\ parseCO2 "123" = fin 0.123
  /\ parseCO2 "1.23kg CO₂" = fin 1.23.
Proof.
  split; [|split; [|split; reflexivity]].
  - intros pre run post -> Hpre Hrun Hne Hpost. unfold parseCO2.
    now rewrite (matchRun_first isDigitOrDot pre run post).
  - intros H. unfold parseCO2.
    assert (N : matchRun isDigitOrDot (fun _ => true) "" co2 = None).
    { apply matchRun_none. now split. }
    now rewrite N.
Qed.

(** The cost label: the first run of digits and dots, times 23 when the
    label contains a dollar sign; a label with no digit and no dot gives
    0. *)
Theorem parseCost_first_run (cost : string) :
  (forall pre run post,
      cost = pre ++ run ++ post ->
      allChars notDigitOrDot pre = true ->
      allChars isDigitOrDot run = true -> run <> "" ->
      headIn isDigitOrDot post = false ->
      parseCost cost
      = if includes "$" cost then parseFloat run * fin 23
        else parseFloat run)
  /\ (allChars notDigitOrDot cost = true -> parseCost cost = fin 0)
  /\ parseCost "120 CZK" = fin 120
  /\ parseCost "$5" = fin 115.
Proof.
  split; [|split; [|split; reflexivity]].
  - intros pre run post -> Hpre Hrun Hne Hpost. unfold parseCost.
    now rewrite (matchRun_first isDigitOrDot pre run post).
  - intros H. unfold parseCost. now rewrite matchRun_no_class.
Qed.

End TripLog.

(* ================================================================= *)
(** ** Arithmetic on positive numbers *)


Section PositiveArithmetic.
Local Open Scope js_scope.








End PositiveArithmetic.

(* ================================================================= *)
(** ** The cost of a car trip *)

Section CarTripCost.
Local Open Scope js_scope.
Import CarCost.


Lemma truthy_not_NaN x : truthy x = true -> isNaN x = false.
Proof. now destruct x. Qed.













End CarTripCost.

(* ================================================================= *)
(** ** The emissions of a car trip *)

Section OneDecimal.
Local Open Scope string_scope.

Variable ToString_other : Q -> string.

Lemma below1e21_nonneg q :
  (0 <= q)%Q -> (q < inject_Z (10 ^ 21))%Q -> Fmt.below1e21 q = true.
Proof.
  intros H0 H1. unfold Fmt.below1e21.
  assert (E : (Qabs q == q)%Q) by now apply Qabs_pos.
  rewrite (Qcompare_comp _ _ E _ _ (Qeq_refl _)).
  destruct (Qcompare_spec q (inject_Z (10 ^ 21))); [exfalso; lra|reflexivity|exfalso; lra].
Qed.

(** [x.toFixed(1)] of a number that is not negative. *)
Lemma toFixed1_nonneg q :
  (0 <= q)%Q -> (q < inject_Z (10 ^ 21))%Q ->
  Fmt.toFixed1 ToString_other (Fin q)
  = let n := Qfloor (q * 10 + (1 # 2)) in
    ofZ (n / 10) ++ "." ++ ofZ (n mod 10).
Proof.
  intros H0 H1. unfold Fmt.toFixed1. rewrite below1e21_nonneg by assumption.
  destruct (Qlt_le_dec q 0) as [L|L]; [exfalso; lra|].
  assert (E : Qfloor (Qabs q * 10 + (1 # 2)) = Qfloor (q * 10 + (1 # 2))).
  { apply Qfloor_comp. now rewrite Qabs_pos. }
  rewrite E. reflexivity.
Qed.

Lemma Qfloor_nonneg q : (0 <= q)%Q -> (0 <= Qfloor q)%Z.
Proof.
  intros H. pose proof (Qlt_floor q) as L.
  assert (K : (0 < inject_Z (Qfloor q + 1))%Q) by lra.
  change 0%Q with (inject_Z 0) in K. rewrite <- Zlt_Qlt in K. lia.
Qed.

Lemma Qfloor_below q b : (q < inject_Z b)%Q -> (Qfloor q < b)%Z.
Proof.
  intros H. pose proof (Qfloor_le q) as L.
  rewrite Zlt_Qlt. lra.
Qed.




End OneDecimal.

Section CarTripEmissions.
Local Open Scope js_scope.
Import CarCost Routing.

Variable ToString_other : Q -> string.
Variable inheritedSegment : string -> string -> number -> option string.







End CarTripEmissions.



(* ================================================================= *)
(** ** The calendar *)

Section Calendar.
Import Date.
Local Open Scope Z_scope.

Lemma YearFromDay_spec d :
  DayFromYear (YearFromDay d) <= d < DayFromYear (YearFromDay d + 1).
Proof.
  unfold YearFromDay.
  set (y0 := 1970 + 400 * d / 146097).
  assert (B : DayFromYear (y0 - 1) <= d < DayFromYear (y0 + 2)).
  { unfold DayFromYear, y0. Z.div_mod_to_equations. lia. }
  destruct (Z.leb_spec (DayFromYear (y0 + 1)) d).
  - replace (y0 + 1 + 1) with (y0 + 2) by lia. lia.
  - destruct (Z.ltb_spec d (DayFromYear y0)).
    + replace (y0 - 1 + 1) with y0 by lia. lia.
    + lia.
Qed.

Lemma DayFromYear_succ y : DayFromYear (y + 1) = DayFromYear y + DaysInYear y.
Proof.
  unfold DaysInYear, isLeap, DayFromYear.
  destruct (Z.eqb_spec (y mod 4) 0), (Z.eqb_spec (y mod 100) 0),
           (Z.eqb_spec (y mod 400) 0); cbn [negb andb orb];
    Z.div_mod_to_equations; lia.
Qed.

Lemma DayFromYear_mono y1 y2 : y1 <= y2 -> DayFromYear y1 <= DayFromYear y2.
Proof. unfold DayFromYear. intros H. Z.div_mod_to_equations. lia. Qed.

Lemma DayWithinYear_range t :
  0 <= DayWithinYear t < DaysInYear (YearFromTime t).
Proof.
  unfold DayWithinYear, YearFromTime.
  pose proof (YearFromDay_spec (Day t)) as H.
  rewrite DayFromYear_succ in H. lia.
Qed.

Lemma InLeapYear_DaysInYear t : DaysInYear (YearFromTime t) = 365 + InLeapYear t.
Proof. unfold DaysInYear, InLeapYear. now destruct (isLeap _). Qed.

Lemma InLeapYear_range t : 0 <= InLeapYear t <= 1.
Proof. unfold InLeapYear. destruct (isLeap _); lia. Qed.

Ltac month_cases :=
  unfold DateFromTime, MonthFromTime;
  repeat match goal with
  | |- context [?a <? ?b] => destruct (Z.ltb_spec a b)
  end;
  cbn [monthStart].

Lemma MonthFromTime_range t : 0 <= MonthFromTime t <= 11.
Proof. month_cases; lia. Qed.

Lemma DateFromTime_range t : 1 <= DateFromTime t <= 31.
Proof.
  pose proof (DayWithinYear_range t) as H.
  rewrite InLeapYear_DaysInYear in H.
  pose proof (InLeapYear_range t).
  month_cases; lia.
Qed.

Lemma MakeDay_month y m d :
  0 <= m <= 11 ->
  MakeDay y m d = DayFromYear y + monthStart m (if isLeap y then 1 else 0) + d - 1.
Proof.
  intros H. unfold MakeDay.
  replace (m / 12) with 0 by (Z.div_mod_to_equations; lia).
  replace (m mod 12) with m by (Z.div_mod_to_equations; lia).
  now rewrite Z.add_0_r.
Qed.

(** The day number of a time is that of its calendar date. *)
Lemma MakeDay_components t :
  MakeDay (YearFromTime t) (MonthFromTime t) (DateFromTime t) = Day t.
Proof.
  rewrite MakeDay_month by apply MonthFromTime_range.
  fold (InLeapYear t).
  unfold DateFromTime, DayWithinYear. lia.
Qed.

(** Times of the same day have the same calendar date. *)
Lemma components_of_Day a b :
  Day a = Day b ->
  YearFromTime a = YearFromTime b
  /\ MonthFromTime a = MonthFromTime b
  /\ DateFromTime a = DateFromTime b.
Proof.
  intros H.
  assert (Y : YearFromTime a = YearFromTime b)
    by (unfold YearFromTime; now rewrite H).
  assert (W : DayWithinYear a = DayWithinYear b)
    by (unfold DayWithinYear; now rewrite H, Y).
  assert (L : InLeapYear a = InLeapYear b)
    by (unfold InLeapYear; now rewrite Y).
  assert (M : MonthFromTime a = MonthFromTime b)
    by (unfold MonthFromTime; now rewrite W, L).
  repeat split; auto.
  unfold DateFromTime. now rewrite W, L, M.
Qed.

(** A date within a month lies before the next year. *)
Lemma MakeDay_before_next_year y m d :
  0 <= m <= 11 -> d <= 31 -> MakeDay y m d < DayFromYear (y + 1).
Proof.
  intros Hm Hd. rewrite MakeDay_month by assumption.
  rewrite DayFromYear_succ. unfold DaysInYear.
  assert (C : m = 0 \/ m = 1 \/ m = 2 \/ m = 3 \/ m = 4 \/ m = 5 \/ m = 6
              \/ m = 7 \/ m = 8 \/ m = 9 \/ m = 10 \/ m = 11) by lia.
  destruct (isLeap y);
    repeat (destruct C as [->|C]; [cbn [monthStart]; lia|]);
    subst; cbn [monthStart]; lia.
Qed.

Lemma Day_MakeDate d : Day (MakeDate d 0) = d.
Proof.
  unfold Day, MakeDate, msPerDay. rewrite Z.add_0_r.
  now rewrite Z.div_mul.
Qed.

Lemma TimeWithinDay_MakeDate d : TimeWithinDay (MakeDate d 0) = 0.
Proof.
  unfold TimeWithinDay, MakeDate, msPerDay. rewrite Z.add_0_r.
  now rewrite Z.mod_mul.
Qed.

Lemma Day_lower_bound d t : MakeDate d 0 <= t <-> d <= Day t.
Proof.
  unfold MakeDate, Day, msPerDay. Z.div_mod_to_equations. lia.
Qed.

End Calendar.

(* ================================================================= *)
(** ** The filter of the dashboard *)

Section TripFilter.
Import Date Dashboard.
Local Open Scope Z_scope.

Variable tz : TimeZone.
Variable now : Z.
Variable Date_parse : string -> option Z.

(** The clock shows a year from 2000 on and a time two days or more before
    the last valid one.  The offsets of the time zone are at most a day,
    those of two local times differ by less than a day, and the local
    midnight at which today begins is a time of the zone (no change of the
    clocks skips it). *)
Hypothesis now_year : 2000 <= YearFromTime (LocalTime tz now).
Hypothesis now_valid : now <= maxTime - 2 * msPerDay.
Hypothesis offset_bound :
  forall t, Z.abs (offsetAt tz t) <= msPerDay
            /\ Z.abs (offsetOfLocal tz t) <= msPerDay.
Hypothesis offset_spread :
  forall t u, Z.abs (offsetOfLocal tz t - offsetOfLocal tz u) < msPerDay.
Hypothesis midnight_exists :
  LocalTime tz (UTC tz (midnight tz now)) = midnight tz now.

Let today : Date :=
  newDate tz (getFullYear tz (Some now)) (getMonth tz (Some now))
             (getDate tz (Some now)).

Lemma Some_injective (a b : Z) : Some a = Some b -> a = b.
Proof. congruence. Qed.

Lemma Day_now_lower : 10957 <= Day (LocalTime tz now).
Proof.
  pose proof (YearFromDay_spec (Day (LocalTime tz now))) as [H _].
  fold (YearFromTime (LocalTime tz now)) in H.
  pose proof (DayFromYear_mono 2000 _ now_year) as M.
  change (DayFromYear 2000) with 10957 in M. lia.
Qed.

Lemma Day_now_upper : MakeDate (Day (LocalTime tz now)) 0 <= LocalTime tz now.
Proof. now apply Day_lower_bound. Qed.

Lemma TimeClip_near d :
  10950 <= d <= Day (LocalTime tz now) ->
  TimeClip (UTC tz (MakeDate d 0)) = Some (UTC tz (MakeDate d 0)).
Proof.
  intros [Hl Hu]. unfold TimeClip, UTC.
  pose proof Day_now_upper as U.
  assert (MakeDate d 0 <= MakeDate (Day (LocalTime tz now)) 0)
    by (unfold MakeDate, msPerDay; lia).
  assert (MakeDate 10950 0 <= MakeDate d 0)
    by (unfold MakeDate, msPerDay; lia).
  pose proof now_valid as V.
  destruct (offset_bound now) as [B _].
  destruct (offset_bound (MakeDate d 0)) as [_ B'].
  unfold LocalTime at 2 in U.
  set (m := MakeDate d 0) in *.
  set (o := offsetOfLocal tz m) in *.
  unfold MakeDate, msPerDay, maxTime in *.
  destruct (Z.leb_spec (Z.abs (m - o)) 8640000000000000);
    [reflexivity|exfalso; lia].
Qed.

Lemma TimeClip_Some x v : TimeClip x = Some v -> v = x.
Proof. unfold TimeClip. destruct (_ <=? _); congruence. Qed.

Lemma newDate_Some y m dt :
  newDate tz (Some y) (Some m) (Some dt)
  = TimeClip (UTC tz (MakeDate
      (MakeDay (if (0 <=? y) && (y <=? 99) then 1900 + y else y) m dt) 0)).
Proof. reflexivity. Qed.

Lemma setDate_Some t0 dt :
  setDate tz (Some t0) (Some dt)
  = TimeClip (UTC tz (MakeDate
      (MakeDay (YearFromTime (LocalTime tz t0))
               (MonthFromTime (LocalTime tz t0)) dt)
      (TimeWithinDay (LocalTime tz t0)))).
Proof. reflexivity. Qed.

(** Local midnights at the same time are the same day. *)
Lemma eqb_midnight a b :
  Date.eqb (TimeClip (UTC tz (MakeDate a 0))) (Some (UTC tz (MakeDate b 0)))
  = true ->
  a = b.
Proof.
  destruct (TimeClip _) as [v|] eqn:E; [|discriminate].
  apply TimeClip_Some in E. subst v.
  unfold Date.eqb. rewrite Z.eqb_eq.
  pose proof (offset_spread (MakeDate a 0) (MakeDate b 0)) as S.
  unfold UTC.
  set (o := offsetOfLocal tz (MakeDate a 0)) in *.
  set (o' := offsetOfLocal tz (MakeDate b 0)) in *.
  unfold MakeDate, msPerDay in *. lia.
Qed.

Lemma today_value : today = Some (UTC tz (midnight tz now)).
Proof.
  unfold today, getFullYear, getMonth, getDate, option_map.
  rewrite newDate_Some.
  destruct (Z.leb_spec (YearFromTime (LocalTime tz now)) 99) as [H|H];
    [pose proof now_year; lia|].
  rewrite andb_false_r, MakeDay_components.
  apply TimeClip_near. pose proof Day_now_lower. lia.
Qed.

Lemma isInPeriod_Today_eq tripDate :
  isInPeriod tz now tripDate "Today"
  = Date.eqb (getTime (newDate tz (getFullYear tz tripDate)
                               (getMonth tz tripDate) (getDate tz tripDate)))
             (getTime today).
Proof. reflexivity. Qed.

Lemma isInPeriod_Week_eq tripDate :
  isInPeriod tz now tripDate "Week"
  = Date.geb tripDate (setDate tz today (Date.sub (getDate tz today) (Some 7)))
    && Date.leb tripDate (Some now).
Proof. reflexivity. Qed.

Lemma isInPeriod_Month_eq tripDate :
  isInPeriod tz now tripDate "Month"
  = Date.eqb (getMonth tz tripDate) (getMonth tz (Some now))
    && Date.eqb (getFullYear tz tripDate) (getFullYear tz (Some now)).
Proof. reflexivity. Qed.

Lemma isInPeriod_Year_eq tripDate :
  isInPeriod tz now tripDate "Year"
  = Date.eqb (getFullYear tz tripDate) (getFullYear tz (Some now)).
Proof. reflexivity. Qed.

Lemma isInPeriod_invalid period :
  In period ["Today"; "Week"; "Month"; "Year"]%string ->
  isInPeriod tz now None period = false.
Proof.
  intros [<-|[<-|[<-|[<-|[]]]]]; try reflexivity.
  rewrite isInPeriod_Week_eq.
  unfold Date.geb, Date.leb. now destruct (setDate _ _ _).
Qed.

(** A year from 0 to 99, read as 1900 plus that year, is not the year of
    [now]. *)
Lemma MakeDay_last_century y m dt :
  0 <= y <= 99 -> 0 <= m <= 11 -> dt <= 31 ->
  MakeDay (1900 + y) m dt <> Day (LocalTime tz now).
Proof.
  intros Hy Hm Hd.
  pose proof (MakeDay_before_next_year (1900 + y) m dt Hm Hd) as B.
  pose proof (DayFromYear_mono (1900 + y + 1) 2000) as M.
  change (DayFromYear 2000) with 10957 in M.
  pose proof Day_now_lower. lia.
Qed.

Lemma isInPeriod_Today t :
  isInPeriod tz now (Some t) "Today" = true <-> sameDay tz now t.
Proof.
  rewrite isInPeriod_Today_eq, today_value.
  unfold getFullYear, getMonth, getDate, getTime, option_map.
  rewrite newDate_Some. unfold midnight.
  set (lt := LocalTime tz t).
  split.
  - intros H. apply eqb_midnight in H.
    destruct ((0 <=? YearFromTime lt) && (YearFromTime lt <=? 99)) eqn:C.
    + exfalso. apply andb_true_iff in C as [C0 C99].
      apply Z.leb_le in C0, C99.
      revert H. apply MakeDay_last_century.
      * lia.
      * apply MonthFromTime_range.
      * apply DateFromTime_range.
    + rewrite MakeDay_components in H.
      now apply components_of_Day.
  - intros (Y & M & D). fold lt in Y, M, D. rewrite Y, M, D.
    destruct (Z.leb_spec (YearFromTime (LocalTime tz now)) 99) as [H|H];
      [pose proof now_year; lia|].
    rewrite andb_false_r, MakeDay_components.
    rewrite TimeClip_near by (pose proof Day_now_lower; lia).
    apply Z.eqb_refl.
Qed.

Lemma weekAgo_value :
  setDate tz today (Date.sub (getDate tz today) (Some 7))
  = Some (weekStart tz now).
Proof.
  rewrite today_value.
  unfold getDate, option_map, Date.sub. rewrite setDate_Some.
  rewrite midnight_exists. unfold midnight, weekStart.
  set (day := Day (LocalTime tz now)).
  rewrite TimeWithinDay_MakeDate.
  destruct (components_of_Day (MakeDate day 0) (LocalTime tz now))
    as (Y & M & D); [apply Day_MakeDate|].
  rewrite Y, M, D.
  assert (W : MakeDay (YearFromTime (LocalTime tz now))
                      (MonthFromTime (LocalTime tz now))
                      (DateFromTime (LocalTime tz now) - 7) = day - 7).
  { unfold day. rewrite <- (MakeDay_components (LocalTime tz now)).
    rewrite !MakeDay_month by apply MonthFromTime_range. lia. }
  rewrite W.
  apply TimeClip_near. pose proof Day_now_lower. fold day. lia.
Qed.

Lemma isInPeriod_Week t :
  isInPeriod tz now (Some t) "Week" = true
  <-> weekStart tz now <= t /\ t <= now.
Proof.
  rewrite isInPeriod_Week_eq, weekAgo_value.
  unfold Date.geb, Date.leb.
  now rewrite andb_true_iff, !Z.leb_le.
Qed.

Lemma isInPeriod_Month t :
  isInPeriod tz now (Some t) "Month" = true
  <-> MonthFromTime (LocalTime tz t) = MonthFromTime (LocalTime tz now)
      /\ YearFromTime (LocalTime tz t) = YearFromTime (LocalTime tz now).
Proof.
  rewrite isInPeriod_Month_eq.
  unfold getMonth, getFullYear, option_map, Date.eqb.
  now rewrite andb_true_iff, !Z.eqb_eq.
Qed.

Lemma isInPeriod_Year t :
  isInPeriod tz now (Some t) "Year" = true
  <-> YearFromTime (LocalTime tz t) = YearFromTime (LocalTime tz now).
Proof.
  rewrite isInPeriod_Year_eq.
  unfold getFullYear, option_map, Date.eqb.
  now rewrite Z.eqb_eq.
Qed.

Lemma isInPeriod_inWindow period tripDate :
  isInPeriod tz now tripDate (FilterState.label period) = true
  <-> exists t, tripDate = Some t /\ inWindow tz now period t.
Proof.
  destruct tripDate as [t|].
  - assert (E : isInPeriod tz now (Some t) (FilterState.label period) = true
                <-> inWindow tz now period t).
    { destruct period; cbn [FilterState.label inWindow].
      - apply isInPeriod_Today.
      - apply isInPeriod_Week.
      - apply isInPeriod_Month.
      - apply isInPeriod_Year. }
    rewrite E. split.
    + intros H. now exists t.
    + intros (t' & Ht & H). now injection Ht as <-.
  - rewrite isInPeriod_invalid.
    + split; [discriminate|]. intros (t & Ht & _). discriminate.
    + destruct period; cbn; tauto.
Qed.

Lemma keepTrip_andb filters trip :
  keepTrip tz now Date_parse filters trip
  = isInPeriod tz now (Date_parse (TripRecord.tripTimestamp trip))
               (FilterState.label (FilterState.period filters))
    && (isEmpty (FilterState.department filters)
        || String.eqb (TripRecord.userDepartment trip)
                      (FilterState.department filters))
    && (isEmpty (FilterState.driverName filters)
        || String.eqb (TripRecord.userId trip)
                      (FilterState.driverName filters))
    && (isEmpty (FilterState.carModel filters)
        || String.eqb (TripRecord.carModel trip)
                      (FilterState.carModel filters)).
Proof.
  unfold keepTrip.
  destruct (isInPeriod _ _ _ _); [|reflexivity].
  destruct (isEmpty (FilterState.department filters)),
           (String.eqb (TripRecord.userDepartment trip) _),
           (isEmpty (FilterState.driverName filters)),
           (String.eqb (TripRecord.userId trip) _),
           (isEmpty (FilterState.carModel filters)),
           (String.eqb (TripRecord.carModel trip) _); reflexivity.
Qed.

Lemma isEmpty_true s : isEmpty s = true <-> s = ""%string.
Proof. destruct s; simpl; split; congruence. Qed.

(** C6, amended.  On a host whose clock shows a valid time in a year from
    2000 on, whose time-zone offsets are at most a day and differ by less
    than a day, and where no change of the clocks skips the midnight at
    which today begins: the filter keeps a trip exactly when its time stamp
    is read as a time in the window of the period (Today: the same local
    calendar day as now; Week: from the start of the local calendar day
    seven days before today through now inclusive; Month: the same local
    calendar month and year; Year: the same local calendar year) and each
    of the department, driver and vehicle model criteria is empty or equal
    to the trip's.  Local days are those of the offset in force at each
    time, so the windows follow the changes of the clocks. *)
Theorem filteredTrips_keeps
    (trips : list TripRecord.t) (filters : FilterState.t) (trip : TripRecord.t) :
  In trip (filteredTrips tz now Date_parse trips filters)
  <-> In trip trips
      /\ (exists t, Date_parse (TripRecord.tripTimestamp trip) = Some t
                    /\ inWindow tz now (FilterState.period filters) t)
      /\ (FilterState.department filters = ""%string
          \/ TripRecord.userDepartment trip = FilterState.department filters)
      /\ (FilterState.driverName filters = ""%string
          \/ TripRecord.userId trip = FilterState.driverName filters)
      /\ (FilterState.carModel filters = ""%string
          \/ TripRecord.carModel trip = FilterState.carModel filters).
Proof.
  unfold filteredTrips. rewrite filter_In, keepTrip_andb.
  rewrite !andb_true_iff, !orb_true_iff, !isEmpty_true, !String.eqb_eq.
  rewrite isInPeriod_inWindow. tauto.
Qed.

End TripFilter.

(** C6, as stated, fails for Week: at 12:00 on 7 June, on a host on UTC,
    the filter keeps a trip recorded at 07:00 on 31 May, which is more than
    seven days (by 4 h 59 min 51.915 s) before now. *)
Lemma keepTrip_week_not_trailing :
  let trip := sampleTrip "8.56" "21 min" "1.23kg CO₂" "265 CZK" "6.0L/100km" in
  Dashboard.keepTrip (Date.fixedZone 0) sampleNow sampleParse weekFilter trip
  = true
  /\ sampleParse (TripRecord.tripTimestamp trip) = Some 1748674808085%Z
  /\ (1748674808085 < sampleNow - 7 * Date.msPerDay)%Z
  /\ (Date.YearFromTime sampleNow, Date.MonthFromTime sampleNow,
      Date.DateFromTime sampleNow, Date.TimeWithinDay sampleNow)
     = (2025, 5, 7, 12 * 3600000)%Z
  /\ (Date.YearFromTime 1748674808085, Date.MonthFromTime 1748674808085,
      Date.DateFromTime 1748674808085, Date.TimeWithinDay 1748674808085)
     = (2025, 4, 31, 7 * 3600000 + 8085)%Z.
Proof. vm_compute. repeat split. Qed.

(** Across a change of the clocks: at 12:00 on 2 April 2025 in central
    Europe the week begins at 00:00 on 26 March, which is 23:00 UTC on
    25 March, so that a trip of 22:30 UTC on 25 March is dropped and one of
    23:30 UTC is kept; a trip of 22:30 UTC on 1 April is one of today. *)
Lemma isInPeriod_across_clock_change :
  weekStart centralEurope aprilNow = 1742943600000%Z
  /\ Dashboard.isInPeriod centralEurope aprilNow (Some 1742941800000%Z) "Week"
     = false
  /\ Dashboard.isInPeriod centralEurope aprilNow (Some 1742945400000%Z) "Week"
     = true
  /\ Dashboard.isInPeriod centralEurope aprilNow (Some 1743546600000%Z) "Today"
     = true
  /\ Dashboard.isInPeriod centralEurope aprilNow (Some 1743543000000%Z) "Today"
     = false.
Proof. vm_compute. repeat split. Qed.

Lemma centralEurope_offsets :
  (forall t, Z.abs (Date.offsetAt centralEurope t) <= Date.msPerDay
             /\ Z.abs (Date.offsetOfLocal centralEurope t) <= Date.msPerDay)%Z
  /\ (forall t u,
        Z.abs (Date.offsetOfLocal centralEurope t
               - Date.offsetOfLocal centralEurope u) < Date.msPerDay)%Z.
Proof.
  unfold centralEurope, Date.msPerDay. cbn [Date.offsetAt Date.offsetOfLocal].
  split.
  - intros t. split; destruct (_ && _); lia.
  - intros t u.
    destruct ((_ <=? t) && _)%Z, ((_ <=? u) && _)%Z; lia.
Qed.

(** The amended C6 on the host in central Europe at 12:00 on 2 April 2025,
    for the sample trip and the Week filter. *)
Lemma filteredTrips_keeps_witness :
  let trip := sampleTrip "8.56" "21 min" "1.23kg CO₂" "265 CZK" "6.0L/100km" in
  In trip (Dashboard.filteredTrips centralEurope aprilNow sampleParse [trip]
                                   weekFilter)
  <-> In trip [trip]
      /\ (exists t, sampleParse (TripRecord.tripTimestamp trip) = Some t
                    /\ inWindow centralEurope aprilNow
                                (FilterState.period weekFilter) t)
      /\ (FilterState.department weekFilter = ""%string
          \/ TripRecord.userDepartment trip = FilterState.department weekFilter)
      /\ (FilterState.driverName weekFilter = ""%string
          \/ TripRecord.userId trip = FilterState.driverName weekFilter)
      /\ (FilterState.carModel weekFilter = ""%string
          \/ TripRecord.carModel trip = FilterState.carModel weekFilter).
Proof.
  apply (filteredTrips_keeps centralEurope aprilNow sampleParse).
  - vm_compute. discriminate.
  - vm_compute. discriminate.
  - apply centralEurope_offsets.
  - apply centralEurope_offsets.
  - reflexivity.
Defined.

(* ================================================================= *)
(** * Further properties *)

(* ================================================================= *)
(** ** Decimal digits *)

Section Digits.
Local Open Scope string_scope.

Lemma digitsValue_app acc a b :
  digitsValue acc (a ++ b) = digitsValue (digitsValue acc a) b.
Proof. revert acc. induction a as [|c a IH]; intros acc; simpl; auto. Qed.

Lemma digitsValue_uint_acc d acc :
  digitsValue (Z.pos acc) (NilEmpty.string_of_uint d)
  = Z.pos (Pos.of_uint_acc d acc).
Proof.
  revert acc. induction d; intros acc; [reflexivity|..];
    cbn [NilEmpty.string_of_uint digitsValue Pos.of_uint_acc];
    rewrite <- IHd; f_equal;
    match goal with
    | |- context [Z.of_nat (code ?c)] =>
        let v := eval vm_compute in (Z.of_nat (code c)) in
        change (Z.of_nat (code c)) with v
    end; lia.
Qed.

Lemma digitsValue_uint d :
  digitsValue 0 (NilEmpty.string_of_uint d) = Z.of_N (Pos.of_uint d).
Proof.
  induction d; [reflexivity|..];
    cbn [NilEmpty.string_of_uint digitsValue Pos.of_uint];
    try (rewrite <- IHd; reflexivity);
    cbn [N.to_nat Z.of_N]; rewrite <- digitsValue_uint_acc; reflexivity.
Qed.

Lemma allChars_uint d : allChars isDigit (NilEmpty.string_of_uint d) = true.
Proof. induction d; simpl; auto. Qed.

Lemma ofZ_pos p : ofZ (Z.pos p) = NilEmpty.string_of_uint (Pos.to_uint p).
Proof.
  unfold ofZ. cbn [Z.to_int NilZero.string_of_int].
  pose proof (Unsigned.to_uint_nonnil p) as N.
  now destruct (Pos.to_uint p).
Qed.

(** The decimal rendering of a natural number consists of digits, at least
    one, and has the number as its value. *)
Lemma ofZ_digits n : (0 <= n)%Z -> allChars isDigit (ofZ n) = true.
Proof.
  intros H. destruct n as [|p|p]; [reflexivity| |lia].
  rewrite ofZ_pos. apply allChars_uint.
Qed.

Lemma ofZ_nonempty n : (0 <= n)%Z -> ofZ n <> "".
Proof.
  intros H. destruct n as [|p|p]; [discriminate| |lia].
  rewrite ofZ_pos. pose proof (Unsigned.to_uint_nonnil p) as N.
  now destruct (Pos.to_uint p).
Qed.

Lemma digitsValue_ofZ n : (0 <= n)%Z -> digitsValue 0 (ofZ n) = n.
Proof.
  intros H. destruct n as [|p|p]; [reflexivity| |lia].
  now rewrite ofZ_pos, digitsValue_uint, Unsigned.of_to.
Qed.

Lemma ofZ_one_digit n : (0 <= n < 10)%Z -> String.length (ofZ n) = 1%nat.
Proof.
  intros H. rewrite <- (Z2Nat.id n) by lia.
  assert (K : (Z.to_nat n < 10)%nat) by lia. revert K.
  generalize (Z.to_nat n) as k. intros k K.
  do 10 (destruct k as [|k]; [reflexivity|]). lia.
Qed.

End Digits.

(* ================================================================= *)
(** ** Whole numbers *)

Section WholeNumbers.
Local Open Scope js_scope.

Lemma Qred_inject_Z z : Qred (inject_Z z) = inject_Z z.
Proof.
  unfold Qred, inject_Z.
  generalize (Z.ggcd_gcd z 1) (Z.ggcd_correct_divisors z 1).
  destruct (Z.ggcd z 1) as [g [a b]]. simpl.
  rewrite Z.gcd_1_r. intros -> [H1 H2].
  rewrite Z.mul_1_l in H1, H2. now subst.
Qed.

Lemma fin_inject_Z z : fin (inject_Z z) = of_Z z.
Proof. unfold fin, of_Z. now rewrite Qred_inject_Z. Qed.

Lemma fin_eq a b : (a == b)%Q -> fin a = fin b.
Proof. intros H. unfold fin. f_equal. now apply Qred_complete. Qed.

Lemma add_of_Z a b : of_Z a + of_Z b = of_Z (a + b).
Proof.
  rewrite <- (fin_inject_Z (a + b)). unfold of_Z. cbn [JS.add].
  apply fin_eq. now rewrite inject_Z_plus.
Qed.

Lemma mul_of_Z a b : of_Z a * of_Z b = of_Z (a * b).
Proof.
  rewrite <- (fin_inject_Z (a * b)). unfold of_Z. cbn [JS.mul].
  apply fin_eq. now rewrite inject_Z_mult.
Qed.

Lemma compare_of_Z a b : JS.compare (of_Z a) (of_Z b) = Some (a ?= b)%Z.
Proof.
  unfold of_Z, JS.compare, Qcompare, inject_Z. cbn [Qnum Qden].
  now rewrite !Z.mul_1_r.
Qed.

Lemma ltb_of_Z a b : (of_Z a <? of_Z b) = (a <? b)%Z.
Proof. unfold JS.ltb. rewrite compare_of_Z. unfold Z.ltb. now destruct (a ?= b)%Z. Qed.

Lemma eqb_of_Z a b : JS.eqb (of_Z a) (of_Z b) = (a =? b)%Z.
Proof.
  unfold JS.eqb. rewrite compare_of_Z, Z.eqb_compare. now destruct (a ?= b)%Z.
Qed.

Lemma gtb_of_Z a b : (of_Z a >? of_Z b) = (b <? a)%Z.
Proof. apply ltb_of_Z. Qed.

Lemma Qfloor_Qred q : Qfloor (Qred q) = Qfloor q.
Proof. apply Qfloor_comp, Qred_correct. Qed.

Lemma inject_Z_nonzero d : (0 < d)%Z -> Qeq_bool (inject_Z d) 0 = false.
Proof.
  intros H. destruct (Qeq_bool (inject_Z d) 0) eqn:E; [|reflexivity].
  apply Qeq_bool_eq in E. unfold Qeq, inject_Z in E. simpl in E. lia.
Qed.

Lemma div_of_Z m d :
  (0 < d)%Z -> of_Z m / of_Z d = fin (inject_Z m / inject_Z d).
Proof. intros H. unfold of_Z. cbn [JS.div]. now rewrite inject_Z_nonzero. Qed.

Lemma Math_floor_div_of_Z m d :
  (0 < d)%Z -> Math_floor (of_Z m / of_Z d) = of_Z (m / d).
Proof.
  intros H. rewrite div_of_Z by assumption. unfold fin. cbn [Math_floor].
  now rewrite Qfloor_Qred, <- Zdiv_Qdiv, fin_inject_Z.
Qed.

Lemma rem_of_Z m d :
  (0 <= m)%Z -> (0 < d)%Z -> rem (of_Z m) (of_Z d) = of_Z (m mod d).
Proof.
  intros Hm Hd. rewrite <- (fin_inject_Z (m mod d)).
  unfold of_Z. cbn [rem]. rewrite inject_Z_nonzero by assumption.
  apply fin_eq.
  assert (T : truncate (inject_Z m / inject_Z d) = (m / d)%Z).
  { unfold truncate. destruct (Qlt_le_dec (inject_Z m / inject_Z d) 0) as [L|L].
    - exfalso. apply (Qlt_not_le _ _ L).
      apply Qle_shift_div_l; [unfold Qlt; simpl; lia|].
      rewrite Qmult_0_l. unfold Qle; simpl; lia.
    - symmetry. apply Zdiv_Qdiv. }
  rewrite T. unfold Qminus.
  rewrite <- inject_Z_mult, <- inject_Z_opp, <- inject_Z_plus.
  replace (m mod d)%Z with (m + - (d * (m / d)))%Z
    by (rewrite (Z.mod_eq m d); lia).
  reflexivity.
Qed.

Lemma Math_ceil_div_of_Z s d :
  (0 < d)%Z -> Math_ceil (of_Z s / of_Z d) = of_Z (- (- s / d)).
Proof.
  intros H. rewrite div_of_Z by assumption. unfold fin. cbn [Math_ceil].
  rewrite fin_inject_Z. f_equal. unfold Qceiling. f_equal.
  rewrite Zdiv_Qdiv. apply Qfloor_comp. rewrite Qred_correct, inject_Z_opp.
  field. intros E. unfold Qeq, inject_Z in E. simpl in E. lia.
Qed.

Section Rendering.
Variable ToString_other : Q -> string.

(** A whole number below 10^21 prints as its decimal digits. *)
Lemma ToString_of_Z z :
  (Z.abs z < 10 ^ 21)%Z -> Fmt.ToString ToString_other (of_Z z) = ofZ z.
Proof.
  intros H. unfold of_Z, Fmt.ToString, Fmt.isInteger, Fmt.below1e21.
  rewrite Qfloor_Z.
  assert (E : Qeq_bool (inject_Z z) (inject_Z z) = true)
    by (apply Qeq_bool_iff; reflexivity).
  rewrite E.
  assert (L : (Qabs (inject_Z z) ?= inject_Z (10 ^ 21))%Q = Lt).
  { unfold Qcompare, inject_Z, Qabs. cbn [Qnum Qden].
    rewrite !Z.mul_1_r. now apply Z.compare_lt_iff. }
  now rewrite L.
Qed.

End Rendering.

End WholeNumbers.

(* ================================================================= *)
(** ** The duration label, from the route planner to the dashboard *)

Section DurationLabel.
Local Open Scope string_scope.
Import Dashboard.

Variable ToString_other : Q -> string.

Let formatDuration := RoutePlanner.formatDuration ToString_other.

(** A run that the continuation does not follow is passed over. *)
Lemma matchRun_pass p k acc run c r :
  allChars p run = true -> p c = false -> k (String c r) = false ->
  matchRun p k acc (run ++ String c r) = matchRun p k "" r.
Proof.
  intros Hall Hc Hk. revert acc.
  induction run as [|a run IH]; intros acc.
  - cbn [append]. now rewrite matchRun_cons, Hc, Hk, andb_false_r.
  - simpl in Hall. apply andb_true_iff in Hall as [Ha Hall].
    cbn [append]. rewrite matchRun_cons, Ha. now apply IH.
Qed.

(** The label of a whole number of minutes, in integer arithmetic. *)
Lemma formatDuration_of_Z m :
  (0 <= m < 10 ^ 21)%Z ->
  formatDuration (of_Z m)
  = if (m <? 60)%Z then ofZ m ++ " minutes"
    else if (m mod 60 =? 0)%Z
         then ofZ (m / 60) ++ " hour" ++ (if (1 <? m / 60)%Z then "s" else "")
         else ofZ (m / 60) ++ "h " ++ ofZ (m mod 60) ++ " min".
Proof.
  intros H. unfold formatDuration, RoutePlanner.formatDuration.
  change (fin 60) with (of_Z 60). change zero with (of_Z 0).
  change (fin 1) with (of_Z 1).
  rewrite ltb_of_Z, Math_floor_div_of_Z, rem_of_Z, eqb_of_Z, gtb_of_Z by lia.
  assert (Hq : (0 <= m / 60 <= m)%Z).
  { split; [apply Z.div_pos; lia|]. apply Z.div_le_upper_bound; lia. }
  assert (Hr : (0 <= m mod 60 < 60)%Z) by (apply Z.mod_pos_bound; lia).
  rewrite !ToString_of_Z by lia.
  reflexivity.
Qed.

Lemma parseInt_ofZ n : (0 <= n)%Z -> parseInt (ofZ n) = of_Z n.
Proof. intros H. unfold parseInt. now rewrite digitsValue_ofZ. Qed.

(** A string that begins with an ASCII character other than white space
    has no white space at its start. *)
Lemma skipSpace_ascii c r :
  isSpace c = false -> (code c <? 128)%nat = true ->
  skipSpace (String c r) = String c r.
Proof.
  intros Hs Hc.
  destruct c as [[] [] [] [] [] [] [] []];
    try discriminate Hc; try discriminate Hs;
    destruct r as [|b [|d r3]]; reflexivity.
Qed.

Let minutesFollow := fun s => startsWith "min" (skipSpace s).

Lemma minutesFollow_h r : minutesFollow (String "h" r) = false.
Proof. unfold minutesFollow. now rewrite skipSpace_ascii. Qed.

Lemma hours_of_minutes_label n :
  (0 <= n)%Z ->
  matchRun isDigit (startsWith "h") "" (ofZ n ++ " minutes") = None
  /\ matchRun isDigit minutesFollow "" (ofZ n ++ " minutes") = Some (ofZ n).
Proof.
  intros H. split.
  - now rewrite matchRun_pass by (auto using ofZ_digits).
  - apply (matchRun_run isDigit minutesFollow "" (ofZ n) " minutes");
      auto using ofZ_digits.
    now apply isEmpty_false, ofZ_nonempty.
Qed.

Lemma hours_label n s :
  (0 <= n)%Z -> s = "s" \/ s = "" ->
  matchRun isDigit (startsWith "h") "" (ofZ n ++ " hour" ++ s) = None
  /\ matchRun isDigit minutesFollow "" (ofZ n ++ " hour" ++ s) = None.
Proof.
  intros H [-> | ->]; cbn [append]; split;
    now rewrite matchRun_pass by (auto using ofZ_digits).
Qed.

Lemma hours_minutes_label h r :
  (0 <= h)%Z -> (0 <= r)%Z ->
  matchRun isDigit (startsWith "h") "" (ofZ h ++ "h " ++ ofZ r ++ " min")
  = Some (ofZ h)
  /\ matchRun isDigit minutesFollow "" (ofZ h ++ "h " ++ ofZ r ++ " min")
     = Some (ofZ r).
Proof.
  intros Hh Hr. split.
  - apply (matchRun_run isDigit (startsWith "h") "" (ofZ h));
      auto using ofZ_digits.
    now apply isEmpty_false, ofZ_nonempty.
  - cbn [append].
    rewrite matchRun_pass by (auto using ofZ_digits, minutesFollow_h).
    rewrite matchRun_cons. cbn [isDigit code nat_of_ascii].
    change (matchRun isDigit minutesFollow "" (ofZ r ++ " min") = Some (ofZ r)).
    apply (matchRun_run isDigit minutesFollow "" (ofZ r) " min");
      auto using ofZ_digits.
    now apply isEmpty_false, ofZ_nonempty.
Qed.

Lemma durMin_of_Z s :
  (0 <= s)%Z -> RoutePlanner.durMin (of_Z s) = of_Z ((s + 59) / 60).
Proof.
  intros H. unfold RoutePlanner.durMin. change (fin 60) with (of_Z 60).
  rewrite Math_ceil_div_of_Z by lia. f_equal.
  Z.div_mod_to_equations. lia.
Qed.

End DurationLabel.

Section DurationRoundTrip.
Import Dashboard.

Variable ToString_other : Q -> string.

Let formatDuration := RoutePlanner.formatDuration ToString_other.

Lemma parseDuration_formatDuration_of_Z m :
  (0 <= m < 10 ^ 21)%Z ->
  parseDuration (formatDuration (of_Z m))
  = if ((m <? 60) || negb (m mod 60 =? 0))%Z then of_Z (60 * m) else of_Z 0.
Proof.
  intros H. unfold formatDuration. rewrite formatDuration_of_Z by assumption.
  assert (Hq : (0 <= m / 60)%Z) by (apply Z.div_pos; lia).
  assert (Hr : (0 <= m mod 60 < 60)%Z) by (apply Z.mod_pos_bound; lia).
  unfold parseDuration.
  change (fin 60) with (of_Z 60). change zero with (of_Z 0).
  destruct (m <? 60)%Z eqn:E60; cbn [orb].
  - destruct (hours_of_minutes_label m) as [-> ->]; [lia|].
    rewrite parseInt_ofZ, !mul_of_Z, add_of_Z, mul_of_Z by lia.
    f_equal. lia.
  - destruct (m mod 60 =? 0)%Z eqn:E0; cbn [negb].
    + destruct (hours_label (m / 60) (if (1 <? m / 60)%Z then "s" else ""))
        as [-> ->]; [lia|destruct (1 <? m / 60)%Z; auto|].
      now rewrite !mul_of_Z, add_of_Z, mul_of_Z.
    + destruct (hours_minutes_label (m / 60) (m mod 60)) as [-> ->]; [lia..|].
      rewrite !parseInt_ofZ, !mul_of_Z, add_of_Z, mul_of_Z by lia.
      f_equal. pose proof (Z.div_mod m 60). lia.
Qed.

End DurationRoundTrip.

(** The duration of a route is written by [formatDuration] and read back by
    the dashboard with [parseDuration].  A whole number of minutes below
    10^14 is read back as that many minutes (in seconds) when it is below
    60 or not a multiple of 60; a whole number of hours, written "1 hour",
    "2 hours", is read back as 0.  The minutes of a route of less than
    10^15 seconds are its seconds divided by 60, rounded up. *)
Theorem parseDuration_formatDuration (ToString_other : Q -> string) :
  let formatDuration := RoutePlanner.formatDuration ToString_other in
  (forall m : Z,
      (0 <= m < 10 ^ 14)%Z ->
      Dashboard.parseDuration (formatDuration (of_Z m))
      = if ((m <? 60) || negb (m mod 60 =? 0))%Z then of_Z (60 * m)
        else of_Z 0)
  /\ (forall s : Z,
        (0 <= s < 10 ^ 15)%Z ->
        RoutePlanner.durMin (of_Z s) = of_Z ((s + 59) / 60))
  /\ formatDuration (of_Z 45) = "45 minutes"
  /\ formatDuration (of_Z 61) = "1h 1 min"
  /\ formatDuration (of_Z 60) = "1 hour"
  /\ formatDuration (of_Z 120) = "2 hours"
  /\ Dashboard.parseDuration "2 hours" = of_Z 0.
Proof.
  intros formatDuration.
  split; [intros m Hm; apply parseDuration_formatDuration_of_Z; lia|].
  split; [intros s Hs; apply durMin_of_Z; lia|].
  vm_compute. repeat split.
Qed.

(* ================================================================= *)
(** ** The hours and minutes of a duration label *)

Section DurationCaptures.
Import Dashboard.
Local Open Scope string_scope.

Let minutesFollow := fun s => startsWith "min" (skipSpace s).

Lemma minutesFollow_not_h r : minutesFollow (String "h" r) = false.
Proof. unfold minutesFollow. now rewrite skipSpace_ascii. Qed.

Lemma minutesFollow_not_digit post :
  minutesFollow post = true -> headIn isDigit post = false.
Proof.
  destruct post as [|c r]; [reflexivity|]. cbn [headIn]. unfold minutesFollow.
  destruct (isDigit c) eqn:D; [|reflexivity]. intros H. exfalso.
  destruct c as [[] [] [] [] [] [] [] []]; try discriminate D;
    rewrite skipSpace_ascii in H by reflexivity; discriminate H.
Qed.

Lemma hours_capture pre H rest :
  allChars (fun c => negb (isDigit c)) pre = true ->
  allChars isDigit H = true -> H <> "" ->
  matchRun isDigit (startsWith "h") "" (pre ++ H ++ String "h" rest) = Some H.
Proof.
  intros Hpre HH Hne. rewrite matchRun_skip by assumption.
  apply (matchRun_run isDigit (startsWith "h") "" H (String "h" rest)); auto.
  now apply isEmpty_false.
Qed.

Lemma minutes_capture pre M post :
  allChars (fun c => negb (isDigit c)) pre = true ->
  allChars isDigit M = true -> M <> "" -> minutesFollow post = true ->
  matchRun isDigit minutesFollow "" (pre ++ M ++ post) = Some M.
Proof.
  intros Hpre HM Hne Hpost. rewrite matchRun_skip by assumption.
  apply (matchRun_run isDigit minutesFollow "" M post); auto.
  - now apply minutesFollow_not_digit.
  - now apply isEmpty_false.
Qed.

Lemma minutes_capture_after_hours pre H sep M post :
  allChars (fun c => negb (isDigit c)) pre = true ->
  allChars isDigit H = true ->
  allChars (fun c => negb (isDigit c)) sep = true ->
  allChars isDigit M = true -> M <> "" -> minutesFollow post = true ->
  matchRun isDigit minutesFollow "" (pre ++ H ++ String "h" (sep ++ M ++ post))
  = Some M.
Proof.
  intros Hpre HH Hsep HM Hne Hpost. rewrite matchRun_skip by assumption.
  rewrite matchRun_pass by (auto using minutesFollow_not_h).
  now apply minutes_capture.
Qed.

Lemma no_minutes pre H rest :
  allChars (fun c => negb (isDigit c)) pre = true ->
  allChars isDigit H = true ->
  allChars (fun c => negb (isDigit c)) rest = true ->
  matchRun isDigit minutesFollow "" (pre ++ H ++ String "h" rest) = None.
Proof.
  intros Hpre HH Hrest. rewrite matchRun_skip by assumption.
  rewrite matchRun_pass by (auto using minutesFollow_not_h).
  now apply matchRun_no_class.
Qed.

Lemma no_hours pre M post :
  allChars (fun c => negb (isDigit c)) pre = true ->
  allChars isDigit M = true -> minutesFollow post = true ->
  allChars (fun c => negb (isDigit c)) post = true ->
  matchRun isDigit (startsWith "h") "" (pre ++ M ++ post) = None.
Proof.
  intros Hpre HM Hpost Hnone. rewrite matchRun_skip by assumption.
  destruct post as [|c r]; [discriminate Hpost|].
  cbn [allChars] in Hnone. apply andb_true_iff in Hnone as [Hc Hr].
  rewrite matchRun_pass.
  - now apply matchRun_no_class.
  - assumption.
  - now apply negb_true_iff.
  - cbn [startsWith]. rewrite andb_true_r.
    destruct (Ascii.eqb_spec "h" c) as [<-|]; [|reflexivity].
    now rewrite minutesFollow_not_h in Hpost.
Qed.

Lemma parseDuration_captures duration hours minutes :
  matchRun isDigit (startsWith "h") "" duration = hours ->
  matchRun isDigit minutesFollow "" duration = minutes ->
  parseDuration duration
  = ((match hours with Some m => parseInt m | None => zero end * fin 60
      + match minutes with Some m => parseInt m | None => zero end)
     * fin 60)%js.
Proof. intros <- <-. reflexivity. Qed.

End DurationCaptures.

(** The duration label: the digits before the first "h" that follows
    digits are the hours, the digits before the first "min" that follows
    digits, white space between them or not, are the minutes, each 0 when
    absent, and the result is [(hours * 60 + minutes) * 60] seconds.
    Stated for hours and minutes of up to 9 digits, in labels whose other
    parts have no digit; a label with no digit gives 0. *)
Theorem parseDuration_seconds :
  let notDigit := fun c => negb (isDigit c) in
  let value := digitsValue 0 in
  (forall pre H sep M post,
      allChars notDigit pre = true ->
      allChars isDigit H = true -> H <> ""%string ->
      (String.length H <= 9)%nat ->
      allChars notDigit sep = true ->
      allChars isDigit M = true -> M <> ""%string ->
      (String.length M <= 9)%nat ->
      startsWith "min" (skipSpace post) = true ->
      Dashboard.parseDuration (pre ++ H ++ "h" ++ sep ++ M ++ post)
      = of_Z ((value H * 60 + value M) * 60))
  /\ (forall pre H rest,
        allChars notDigit pre = true ->
        allChars isDigit H = true -> H <> ""%string ->
        (String.length H <= 9)%nat ->
        allChars notDigit rest = true ->
        Dashboard.parseDuration (pre ++ H ++ "h" ++ rest)
        = of_Z ((value H * 60 + 0) * 60))
  /\ (forall pre M post,
        allChars notDigit pre = true ->
        allChars isDigit M = true -> M <> ""%string ->
        (String.length M <= 9)%nat ->
        startsWith "min" (skipSpace post) = true ->
        allChars notDigit post = true ->
        Dashboard.parseDuration (pre ++ M ++ post)
        = of_Z ((0 * 60 + value M) * 60))
  /\ (forall duration,
        allChars notDigit duration = true ->
        Dashboard.parseDuration duration = fin 0)
  /\ Dashboard.parseDuration "1h 2 min" = fin 3720
  /\ Dashboard.parseDuration "1h 55min" = fin 6900
  /\ Dashboard.parseDuration "45 min" = fin 2700
  /\ Dashboard.parseDuration "2h" = fin 7200
  /\ Dashboard.parseDuration "" = fin 0
  /\ Dashboard.parseDuration
       ("5" ++ String (ascii_of_nat 194) (String (ascii_of_nat 160) "min"))
     = fin 300.
Proof.
  intros notDigit value. unfold notDigit, value.
  split; [|split; [|split; [|split; [|repeat split]]]].
  - intros pre H sep M post Hpre HH Hne _ Hsep HM Mne _ Hpost.
    cbn [append].
    rewrite (parseDuration_captures _ (Some H) (Some M)).
    + unfold parseInt. change (fin 60) with (of_Z 60).
      now rewrite !mul_of_Z, add_of_Z, mul_of_Z.
    + now apply hours_capture.
    + now apply minutes_capture_after_hours.
  - intros pre H rest Hpre HH Hne _ Hrest. cbn [append].
    rewrite (parseDuration_captures _ (Some H) None).
    + unfold parseInt. change (fin 60) with (of_Z 60).
      change zero with (of_Z 0).
      now rewrite !mul_of_Z, add_of_Z, mul_of_Z.
    + now apply hours_capture.
    + now apply no_minutes.
  - intros pre M post Hpre HM Mne _ Hpost Hnone.
    rewrite (parseDuration_captures _ None (Some M)).
    + unfold parseInt. change (fin 60) with (of_Z 60).
      change zero with (of_Z 0).
      now rewrite !mul_of_Z, add_of_Z, mul_of_Z.
    + now apply no_hours.
    + now apply minutes_capture.
  - intros duration H. unfold Dashboard.parseDuration.
    now rewrite !matchRun_no_class.
Qed.

(* ================================================================= *)
(** ** Reading a decimal numeral *)

Section DecimalNumeral.
Local Open Scope string_scope.

Lemma span_run p run rest :
  allChars p run = true -> headIn p rest = false ->
  span p (run ++ rest) = (run, rest).
Proof.
  intros Hall Hrest. induction run as [|c run IH].
  - destruct rest as [|c r]; [reflexivity|]. simpl in *. now rewrite Hrest.
  - simpl in Hall. apply andb_true_iff in Hall as [Hc Hall].
    cbn [append span]. now rewrite Hc, IH.
Qed.

Lemma span_all p run : allChars p run = true -> span p run = (run, "").
Proof.
  intros H. rewrite <- (append_nil_r run) at 1. now apply span_run.
Qed.

(** A numeral that begins with a digit has no sign, no white space and is
    not [Infinity]. *)
Lemma parseFloat_digit c r :
  isDigit c = true ->
  parseFloat (String c r) = parseUnsigned (String c r)
  /\ startsWith "Infinity" (String c r) = false.
Proof.
  intros H.
  assert (S : skipSpace (String c r) = String c r).
  { apply skipSpace_ascii;
      destruct c as [[] [] [] [] [] [] [] []]; try discriminate H;
      reflexivity. }
  unfold parseFloat. rewrite S.
  destruct c as [[] [] [] [] [] [] [] []]; try discriminate H;
    split; reflexivity.
Qed.

(** Digits, a point and digits read as the number they denote. *)
Lemma parseFloat_point a b :
  allChars isDigit a = true -> a <> "" -> allChars isDigit b = true ->
  parseFloat (a ++ "." ++ b)
  = fin (inject_Z (digitsValue 0 (a ++ b))
         * 10 ^ (- Z.of_nat (String.length b))).
Proof.
  intros Ha Hne Hb.
  destruct a as [|c a']; [now elim Hne|].
  assert (Hc : isDigit c = true) by (simpl in Ha; now apply andb_true_iff in Ha).
  cbn [append]. destruct (parseFloat_digit c (a' ++ String "." b) Hc) as [-> I].
  unfold parseUnsigned. rewrite I.
  change (String c (a' ++ String "." b)) with (String c a' ++ String "." b).
  rewrite span_run by auto. rewrite span_all by assumption.
  cbn [isEmpty andb parseExponent]. reflexivity.
Qed.

(** Digits alone read as the whole number they denote. *)
Lemma parseFloat_whole a :
  allChars isDigit a = true -> a <> "" ->
  parseFloat a = of_Z (digitsValue 0 a).
Proof.
  intros Ha Hne.
  destruct a as [|c a']; [now elim Hne|].
  assert (Hc : isDigit c = true) by (simpl in Ha; now apply andb_true_iff in Ha).
  destruct (parseFloat_digit c a' Hc) as [-> I].
  unfold parseUnsigned. rewrite I. rewrite span_all by assumption.
  cbn [isEmpty andb parseExponent append String.length Z.of_nat Z.sub].
  rewrite append_nil_r, <- fin_inject_Z. apply fin_eq.
  change (10 ^ (0 - 0))%Q with 1%Q. ring.
Qed.

Lemma digitsValue_one_digit acc r :
  (0 <= r < 10)%Z -> digitsValue acc (ofZ r) = (10 * acc + r)%Z.
Proof.
  intros H. rewrite <- (Z2Nat.id r) by lia.
  assert (K : (Z.to_nat r < 10)%nat) by lia. revert K.
  generalize (Z.to_nat r) as k. intros k K.
  do 10 (destruct k as [|k]; [reflexivity|]). lia.
Qed.

(** The digits of [n] with a point before the last one read as [n / 10]. *)
Lemma parseFloat_tenths n :
  (0 <= n)%Z ->
  parseFloat (ofZ (n / 10) ++ "." ++ ofZ (n mod 10)) = fin (inject_Z n / 10).
Proof.
  intros H.
  assert (Hq : (0 <= n / 10)%Z) by (apply Z.div_pos; lia).
  assert (Hr : (0 <= n mod 10 < 10)%Z) by (apply Z.mod_pos_bound; lia).
  rewrite parseFloat_point
    by (first [apply ofZ_digits | apply ofZ_nonempty]; lia).
  rewrite digitsValue_app, digitsValue_ofZ, digitsValue_one_digit by lia.
  rewrite ofZ_one_digit by lia.
  apply fin_eq. rewrite <- (Z.div_mod n 10) by lia.
  change (10 ^ (- Z.of_nat 1))%Q with (/ 10)%Q. reflexivity.
Qed.

End DecimalNumeral.

(* ================================================================= *)
(** ** The labels of a trip, read back by the dashboard *)

Section TripLabels.
Local Open Scope string_scope.
Local Open Scope js_scope.
Import Dashboard.

Variable ToString_other : Q -> string.

Lemma allChars_isDigitOrDot s :
  allChars isDigit s = true -> allChars isDigitOrDot s = true.
Proof.
  induction s as [|c r IH]; [reflexivity|]. simpl. intros H.
  apply andb_true_iff in H as [Hc Hr]. rewrite (IH Hr).
  unfold isDigitOrDot. now rewrite Hc.
Qed.



Lemma finite_between x b :
  zero <= x -> x < of_Z b ->
  exists q, x = Fin q /\ (0 <= q)%Q /\ (q < inject_Z b)%Q.
Proof.
  destruct x as [| | |q]; try discriminate. intros H0 H1. exists q.
  split; [reflexivity|]. unfold of_Z in H1. revert H0 H1. js_order; lra.
Qed.

Lemma or_else_zero q : or_else (fin q) zero = fin q.
Proof.
  unfold or_else, fin, truthy.
  destruct (Qeq_bool (Qred q) 0) eqn:E; [|reflexivity].
  apply Qeq_bool_eq in E. cbn [negb]. unfold zero. f_equal.
  transitivity (Qred (Qred q)).
  - change 0%Q with (Qred 0). symmetry. now apply Qred_complete.
  - apply Qred_complete, Qred_correct.
Qed.


End TripLabels.


Section FareLabel.
Local Open Scope string_scope.
Local Open Scope js_scope.
Import Dashboard.

Variable ToString_other : Q -> string.

Lemma isDigit_not_dollar s :
  allChars isDigit s = true -> forall post,
  includes "$" post = false -> includes "$" (s ++ post) = false.
Proof.
  intros H post Hp. induction s as [|c r IH]; [exact Hp|].
  simpl in H. apply andb_true_iff in H as [Hc Hr].
  cbn [append includes startsWith]. rewrite (IH Hr), andb_true_r, orb_false_r.
  destruct (Ascii.eqb_spec "$" c) as [<-|]; [discriminate Hc|reflexivity].
Qed.

(** A whole amount followed by the currency reads back. *)
Lemma parseCost_CZK n :
  (0 <= n)%Z -> parseCost (ofZ n ++ " CZK") = of_Z n.
Proof.
  intros H. unfold parseCost.
  change (ofZ n ++ " CZK") with ("" ++ ofZ n ++ " CZK").
  rewrite (matchRun_first isDigitOrDot "" (ofZ n) " CZK");
    try reflexivity.
  - cbn [append]. rewrite isDigit_not_dollar by (try reflexivity; now apply ofZ_digits).
    rewrite parseFloat_whole by (first [apply ofZ_digits|apply ofZ_nonempty]; lia).
    now rewrite digitsValue_ofZ.
  - now apply allChars_isDigitOrDot, ofZ_digits.
  - now apply ofZ_nonempty.
Qed.

Lemma Math_round_whole q b :
  (0 <= q)%Q -> (q + (1 # 2) < inject_Z b)%Q ->
  exists n, Math_round (Fin q) = of_Z n /\ (0 <= n < b)%Z.
Proof.
  intros H0 H1. exists (Qfloor (q + (1 # 2))). split.
  - cbn [Math_round]. apply fin_inject_Z.
  - split; [apply Qfloor_nonneg; lra|now apply Qfloor_below].
Qed.

End FareLabel.

(** The fare of a transit route is written by
    [calculatePublicTransportCost] and read back by the dashboard with
    [parseCost]: by rail the rounded amount, otherwise the amount of the
    tier. *)
Theorem parseCost_calculatePublicTransportCost (ToString_other : Q -> string)
    (distance durationMinutes : number) (transitTypes : list string) :
  let label :=
    Routing.calculatePublicTransportCost ToString_other distance
                                         durationMinutes transitTypes in
  (Routing.hasTrainService transitTypes = true ->
   (zero <= distance)%js -> (distance < of_Z (10 ^ 20))%js ->
   Dashboard.parseCost label = Math_round (distance * fin 1.5)%js)
  /\ (Routing.hasTrainService transitTypes = false ->
      Dashboard.parseCost label
      = if (durationMinutes <? fin 30)%js then fin 30
        else if (durationMinutes <=? fin 90)%js then fin 40
        else fin 120).
Proof.
  intros label. unfold label, Routing.calculatePublicTransportCost.
  split; intros ->.
  - intros H0 H1. destruct (finite_between _ _ H0 H1) as (q & -> & Q0 & Q1).
    change (fin 1.5) with (Fin (3 # 2)). cbn [JS.mul]. unfold fin.
    destruct (Math_round_whole (Qred (q * (3 # 2))) (10 ^ 21)) as (n & -> & Hn).
    + rewrite Qred_correct. lra.
    + rewrite Qred_correct.
      change (inject_Z (10 ^ 21)) with (10 * inject_Z (10 ^ 20))%Q.
      assert (1 <= inject_Z (10 ^ 20))%Q by discriminate. lra.
    + rewrite ToString_of_Z by lia. apply parseCost_CZK. lia.
  - destruct (durationMinutes <? fin 30)%js; [reflexivity|].
    destruct (durationMinutes <=? fin 90)%js; reflexivity.
Qed.

Section DistanceLabel.
Local Open Scope string_scope.
Local Open Scope js_scope.
Import Dashboard.

Variable ToString_other : Q -> string.

Lemma parseDistance_tenths n :
  (0 <= n)%Z -> parseDistance (tenths n) = fin (inject_Z n / 10).
Proof.
  intros H. unfold parseDistance, tenths.
  rewrite parseFloat_tenths by assumption. apply or_else_zero.
Qed.

Lemma distKm_of_Z metres :
  (0 <= metres < 10 ^ 23)%Z ->
  RoutePlanner.distKm ToString_other (of_Z metres)
  = tenths ((metres + 50) / 100).
Proof.
  intros H. unfold RoutePlanner.distKm.
  change (fin 1000) with (of_Z 1000). rewrite div_of_Z by lia. unfold fin at 1.
  rewrite toFixed1_nonneg.
  - cbv zeta. fold (tenths (Qfloor (Qred (inject_Z metres / inject_Z 1000)
                                    * 10 + (1 # 2)))).
    f_equal. rewrite Zdiv_Qdiv. apply Qfloor_comp. rewrite Qred_correct.
    rewrite inject_Z_plus. change (inject_Z 1000) with 1000%Q.
    change (inject_Z 50) with 50%Q. change (inject_Z 100) with 100%Q.
    field.
  - rewrite Qred_correct. apply Qle_shift_div_l; [reflexivity|].
    rewrite Qmult_0_l. change 0%Q with (inject_Z 0). rewrite <- Zle_Qle. lia.
  - rewrite Qred_correct. apply Qlt_shift_div_r; [reflexivity|].
    rewrite <- inject_Z_mult, <- Zlt_Qlt. lia.
Qed.

End DistanceLabel.

(** The distance of a route is written with one decimal and read back by
    the dashboard with [parseDistance]: a length of less than 10^15 whole
    metres is written, and read back, as a number of tenths of a kilometre
    within 50 m of it (the nearest one, and either of the two at an equal
    distance), so that less than 50 m is read back as 0. *)
Theorem parseDistance_distKm (ToString_other : Q -> string) :
  let distKm := RoutePlanner.distKm ToString_other in
  (forall metres : Z,
      (0 <= metres < 10 ^ 15)%Z ->
      exists n : Z,
        (0 <= n)%Z /\ (Z.abs (100 * n - metres) <= 50)%Z
        /\ distKm (of_Z metres) = tenths n
        /\ Dashboard.parseDistance (distKm (of_Z metres))
           = fin (inject_Z n / 10))
  /\ (forall metres : Z,
        (0 <= metres < 50)%Z ->
        distKm (of_Z metres) = "0.0"
        /\ Dashboard.parseDistance (distKm (of_Z metres)) = fin 0)
  /\ distKm (of_Z 12345) = "12.3"
  /\ Dashboard.parseDistance (distKm (of_Z 12345)) = fin 12.3.
Proof.
  intros distKm. split; [|split; [|split; reflexivity]].
  - intros metres H. exists ((metres + 50) / 100)%Z.
    assert (N : (0 <= (metres + 50) / 100)%Z) by (apply Z.div_pos; lia).
    split; [exact N|].
    split; [Z.div_mod_to_equations; lia|].
    unfold distKm. rewrite distKm_of_Z by lia.
    split; [reflexivity|now apply parseDistance_tenths].
  - intros metres H. unfold distKm. rewrite distKm_of_Z by lia.
    assert (E : ((metres + 50) / 100 = 0)%Z) by (apply Z.div_small; lia).
    rewrite E. split; reflexivity.
Qed.

(* ================================================================= *)
(** ** Lists without duplicates *)

Section Unique.
Local Open Scope list_scope.

Lemma includes_In x xs : Arr.includes x xs = true <-> In x xs.
Proof.
  unfold Arr.includes. rewrite existsb_exists. split.
  - intros (y & Hin & E). apply String.eqb_eq in E. now subst.
  - intros H. exists x. split; [assumption|apply String.eqb_refl].
Qed.

Lemma includes_not_In x xs : Arr.includes x xs = false <-> ~ In x xs.
Proof.
  rewrite <- includes_In. now destruct (Arr.includes x xs).
Qed.

Let add := fun (seen : list string) (x : string) =>
  if Arr.includes x seen then seen else seen ++ [x].

Lemma unique_from_In xs : forall seen y,
  In y (fold_left add xs seen) <-> In y seen \/ In y xs.
Proof.
  induction xs as [|x xs IH]; intros seen y; cbn [fold_left].
  - simpl. tauto.
  - rewrite IH. unfold add. destruct (Arr.includes x seen) eqn:E.
    + apply includes_In in E. simpl. intuition (subst; auto).
    + rewrite in_app_iff. simpl. tauto.
Qed.

Lemma unique_from_NoDup xs : forall seen,
  NoDup seen -> NoDup (fold_left add xs seen).
Proof.
  induction xs as [|x xs IH]; intros seen H; cbn [fold_left]; [assumption|].
  apply IH. unfold add. destruct (Arr.includes x seen) eqn:E; [assumption|].
  apply includes_not_In in E.
  apply NoDup_app; [assumption|repeat constructor; auto|].
  intros y Hy [<-|[]]. contradiction.
Qed.

Lemma unique_In xs y : In y (Arr.unique xs) <-> In y xs.
Proof.
  change (Arr.unique xs) with (fold_left add xs []).
  rewrite unique_from_In. simpl. tauto.
Qed.

Lemma unique_NoDup xs : NoDup (Arr.unique xs).
Proof. apply (unique_from_NoDup xs []). constructor. Qed.

End Unique.

(* ================================================================= *)
(** ** The options and the resets of the dashboard filters *)

Section FilterControls.
Import FilterState Controls.
Local Open Scope string_scope.
Local Open Scope list_scope.

Lemma filter_criterion (field : TripRecord.t -> string) criterion trips trip :
  In trip (if negb (isEmpty criterion)
           then filter (fun t => String.eqb (field t) criterion) trips
           else trips)
  <-> In trip trips /\ admits criterion (field trip).
Proof.
  unfold admits. destruct (isEmpty criterion) eqn:E; cbn [negb].
  - apply isEmpty_true in E. tauto.
  - apply isEmpty_false in E. rewrite filter_In, String.eqb_eq. tauto.
Qed.

Lemma uniqueUserIds_In trips filters u :
  In u (uniqueUserIds trips filters)
  <-> exists trip, In trip trips /\ TripRecord.userId trip = u
        /\ admits (department filters) (TripRecord.userDepartment trip).
Proof.
  unfold uniqueUserIds. rewrite unique_In, in_map_iff.
  split; intros (trip & A & B); exists trip.
  - apply (filter_criterion TripRecord.userDepartment) in B. tauto.
  - split; [tauto|].
    apply (filter_criterion TripRecord.userDepartment). tauto.
Qed.

Lemma uniqueCarModels_In trips filters m :
  In m (uniqueCarModels trips filters)
  <-> exists trip, In trip trips /\ TripRecord.carModel trip = m
        /\ admits (department filters) (TripRecord.userDepartment trip)
        /\ admits (driverName filters) (TripRecord.userId trip).
Proof.
  unfold uniqueCarModels. rewrite unique_In, in_map_iff.
  split; intros (trip & A & B); exists trip.
  - apply (filter_criterion TripRecord.userId) in B. destruct B as [B C].
    apply (filter_criterion TripRecord.userDepartment) in B. tauto.
  - split; [tauto|].
    apply (filter_criterion TripRecord.userId). split; [|tauto].
    apply (filter_criterion TripRecord.userDepartment). tauto.
Qed.

End FilterControls.

(** The options of the three filters have no duplicates and are: every
    department of the log; every driver with a trip in the selected
    department (of any department when none is selected); every car model
    of a trip of the selected department and of the selected driver (either
    criterion being void when empty). *)
Theorem dashboard_options (trips : list TripRecord.t) (filters : FilterState.t) :
  (NoDup (Controls.uniqueDepartments trips)
   /\ forall d, In d (Controls.uniqueDepartments trips)
        <-> exists trip, In trip trips /\ TripRecord.userDepartment trip = d)
  /\ (NoDup (Controls.uniqueUserIds trips filters)
      /\ forall u, In u (Controls.uniqueUserIds trips filters)
           <-> exists trip, In trip trips /\ TripRecord.userId trip = u
                 /\ admits (FilterState.department filters)
                           (TripRecord.userDepartment trip))
  /\ (NoDup (Controls.uniqueCarModels trips filters)
      /\ forall m, In m (Controls.uniqueCarModels trips filters)
           <-> exists trip, In trip trips /\ TripRecord.carModel trip = m
                 /\ admits (FilterState.department filters)
                           (TripRecord.userDepartment trip)
                 /\ admits (FilterState.driverName filters)
                           (TripRecord.userId trip)).
Proof.
  repeat split; try apply unique_NoDup;
    try apply uniqueUserIds_In; try apply uniqueCarModels_In.
  - unfold Controls.uniqueDepartments. rewrite unique_In, in_map_iff.
    intros (trip & A & B). now exists trip.
  - unfold Controls.uniqueDepartments. rewrite unique_In, in_map_iff.
    intros (trip & A & B). now exists trip.
Qed.

(** When the department changes to a department, the selected driver is
    kept exactly when the driver is among the options for that department;
    otherwise the driver and the car model are both cleared.  The period
    and the department are untouched, and running the effect again changes
    nothing.  After the effect, if a department is selected, a selected
    driver is among the options; with no department selected the effect
    changes nothing, so that a driver who is in no trip of the log stays
    selected. *)
Theorem resetOnDepartment_driver
    (trips : list TripRecord.t) (filters : FilterState.t) :
  let filters' := Controls.resetOnDepartment trips filters in
  let offered := In (FilterState.driverName filters)
                    (Controls.uniqueUserIds trips filters) in
  FilterState.period filters' = FilterState.period filters
  /\ FilterState.department filters' = FilterState.department filters
  /\ (FilterState.department filters = ""
      \/ FilterState.driverName filters = "" \/ offered ->
      filters' = filters)
  /\ (FilterState.department filters <> "" ->
      FilterState.driverName filters <> "" -> ~ offered ->
      FilterState.driverName filters' = ""
      /\ FilterState.carModel filters' = "")
  /\ (FilterState.department filters' <> "" ->
      FilterState.driverName filters' <> "" ->
      In (FilterState.driverName filters')
         (Controls.uniqueUserIds trips filters'))
  /\ Controls.resetOnDepartment trips filters' = filters'
  /\ (let log := [tripOf "u1" "Sales" "Fiesta"] in
      let lone := {| FilterState.period := FilterState.Week;
                     FilterState.department := "";
                     FilterState.driverName := "u9";
                     FilterState.carModel := "" |} in
      Controls.resetOnDepartment log lone = lone
      /\ ~ In "u9" (Controls.uniqueUserIds log lone)).
Proof.
  intros filters' offered.
  assert (O : FilterState.department filters <> "" ->
              (Arr.includes (FilterState.driverName filters)
                 (Arr.unique
                    (map TripRecord.userId
                       (filter (Controls.inDepartment
                                  (FilterState.department filters)) trips)))
               = true <-> offered)).
  { intros Hd. unfold offered, Controls.uniqueUserIds.
    apply isEmpty_false in Hd. rewrite Hd. cbn [negb]. apply includes_In. }
  unfold filters', Controls.resetOnDepartment.
  split; [|split; [|split; [|split; [|split; [|split]]]]].
  - destruct (negb _); [destruct (_ && _)|]; reflexivity.
  - destruct (negb _); [destruct (_ && _)|]; reflexivity.
  - intros [H|[H|H]].
    + now rewrite H.
    + rewrite H. cbn [isEmpty negb andb]. now destruct (negb _).
    + destruct (isEmpty (FilterState.department filters)) eqn:Ed;
        [reflexivity|].
      apply isEmpty_false in Ed. apply (O Ed) in H. rewrite H.
      cbn [negb]. now rewrite andb_false_r.
  - intros Hd Hn Ho. pose proof (O Hd) as O'.
    apply isEmpty_false in Hd, Hn. rewrite Hd, Hn. cbn [negb andb].
    destruct (Arr.includes _ _); [elim Ho; now apply O'|].
    cbn [negb]. now split.
  - destruct (isEmpty (FilterState.department filters)) eqn:Ed; cbn [negb].
    { apply isEmpty_true in Ed. intros H. now elim H. }
    destruct (isEmpty (FilterState.driverName filters)) eqn:En;
      cbn [negb andb].
    { apply isEmpty_true in En. intros _ H. now elim H. }
    destruct (Arr.includes _ _) eqn:Ei; cbn [negb FilterState.driverName].
    + intros Hd _. now apply (O Hd).
    + intros _ H. now elim H.
  - destruct (isEmpty (FilterState.department filters)) eqn:Ed; cbn [negb];
      [now rewrite Ed|].
    destruct (isEmpty (FilterState.driverName filters)) eqn:En;
      cbn [negb andb]; [now rewrite Ed, En|].
    destruct (Arr.includes _ _) eqn:Ei;
      cbn [negb FilterState.department FilterState.driverName isEmpty].
    + now rewrite Ed, En, Ei.
    + now rewrite Ed.
  - split; [reflexivity|]. vm_compute. intros [H|[]]. discriminate H.
Qed.

(** When the driver changes, the selected car model is kept exactly when
    the driver has a trip with it in the log, in whatever department;
    otherwise it is cleared.  The other criteria are untouched and running
    the effect again changes nothing.  The options of the car model filter
    are narrowed by the department as well: a model that both effects keep
    can therefore be missing from the options, as is "Fiesta" for a driver
    who drove it in Sales and an "Octavia" in IT, once IT is selected. *)
Theorem resetOnDriver_model
    (trips : list TripRecord.t) (filters : FilterState.t) :
  let filters' := Controls.resetOnDriver trips filters in
  let used := usedBy trips (FilterState.driverName filters)
                     (FilterState.carModel filters) in
  FilterState.period filters' = FilterState.period filters
  /\ FilterState.department filters' = FilterState.department filters
  /\ FilterState.driverName filters' = FilterState.driverName filters
  /\ (FilterState.driverName filters = ""
      \/ FilterState.carModel filters = "" \/ used ->
      filters' = filters)
  /\ (FilterState.driverName filters <> "" ->
      FilterState.carModel filters <> "" -> ~ used ->
      FilterState.carModel filters' = "")
  /\ (FilterState.driverName filters' <> "" ->
      FilterState.carModel filters' <> "" ->
      usedBy trips (FilterState.driverName filters')
             (FilterState.carModel filters'))
  /\ Controls.resetOnDriver trips filters' = filters'
  /\ (let log := [tripOf "anna" "Sales" "Fiesta"; tripOf "anna" "IT" "Octavia"] in
      let selection := {| FilterState.period := FilterState.Today;
                          FilterState.department := "IT";
                          FilterState.driverName := "anna";
                          FilterState.carModel := "Fiesta" |} in
      Controls.resetOnDepartment log selection = selection
      /\ Controls.resetOnDriver log selection = selection
      /\ Controls.uniqueCarModels log selection = ["Octavia"]).
Proof.
  intros filters' used.
  assert (U : Arr.includes (FilterState.carModel filters)
                (Arr.unique
                   (map TripRecord.carModel
                      (filter (Controls.ofDriver (FilterState.driverName filters))
                              trips))) = true
              <-> used).
  { rewrite includes_In, unique_In, in_map_iff. unfold used, usedBy.
    split; intros (trip & A & B); exists trip.
    - apply filter_In in B as [B C]. apply String.eqb_eq in C. tauto.
    - split; [tauto|]. apply filter_In. split; [tauto|].
      apply String.eqb_eq. tauto. }
  unfold filters', Controls.resetOnDriver.
  split; [|split; [|split; [|split; [|split; [|split; [|split]]]]]];
    try (vm_compute; repeat split; fail).
  - destruct (_ && _); [destruct (negb _)|]; reflexivity.
  - destruct (_ && _); [destruct (negb _)|]; reflexivity.
  - destruct (_ && _); [destruct (negb _)|]; reflexivity.
  - intros [H|[H|H]].
    + rewrite H. reflexivity.
    + rewrite H. cbn [isEmpty negb]. now rewrite andb_false_r.
    + apply U in H. rewrite H. cbn [negb]. now destruct (_ && _).
  - intros Hn Hm Hu. apply isEmpty_false in Hn, Hm. rewrite Hn, Hm.
    cbn [negb andb].
    destruct (Arr.includes _ _) eqn:E; [|reflexivity].
    elim Hu. now apply U.
  - destruct (isEmpty (FilterState.driverName filters)) eqn:En;
      cbn [negb andb].
    { apply isEmpty_true in En. intros H. now elim H. }
    destruct (isEmpty (FilterState.carModel filters)) eqn:Em;
      cbn [negb andb].
    { apply isEmpty_true in Em. intros _ H. now elim H. }
    destruct (Arr.includes _ _) eqn:E; cbn [negb FilterState.carModel
                                            FilterState.driverName].
    + intros _ _. now apply U.
    + intros _ H. now elim H.
  - destruct (isEmpty (FilterState.driverName filters)) eqn:En;
      cbn [negb andb]; [now rewrite En|].
    destruct (isEmpty (FilterState.carModel filters)) eqn:Em;
      cbn [negb andb]; [now rewrite En, Em|].
    destruct (Arr.includes _ _) eqn:E;
      cbn [negb FilterState.carModel FilterState.driverName isEmpty].
    + now rewrite En, Em, E.
    + now rewrite andb_false_r.
Qed.

(* ================================================================= *)
(** ** The vehicle kinds of a transit route *)

Section TransitTypes.
Import RoutePlanner.
Local Open Scope string_scope.
Local Open Scope list_scope.

Let push := fun (transitTypes : list string) (step : Step) =>
  match travel_mode step, transit step with
  | TRANSIT, Some transit =>
      match line transit with
      | Some line =>
          match vehicle line with
          | Some vehicle => transitTypes ++ [transitTypeOf (type vehicle)]
          | None => transitTypes
          end
      | None => transitTypes
      end
  | _, _ => transitTypes
  end.

Lemma push_vehicleTypeOf acc step :
  push acc step
  = match vehicleTypeOf step with
    | Some v => acc ++ [transitTypeOf v]
    | None => acc
    end.
Proof.
  unfold push, vehicleTypeOf.
  destruct (travel_mode step); try reflexivity.
  destruct (transit step) as [[[[[[v]|]]|]]|]; reflexivity.
Qed.

Lemma pushed_In steps : forall acc name,
  In name (fold_left push steps acc)
  <-> In name acc
      \/ exists step v, In step steps /\ vehicleTypeOf step = Some v
                        /\ transitTypeOf v = name.
Proof.
  induction steps as [|s steps IH]; intros acc name; cbn [fold_left].
  - split; [tauto|]. intros [H|(step & v & [] & _)]. exact H.
  - rewrite IH, push_vehicleTypeOf. split.
    + intros [H|(step & v & Hin & Hv)].
      * destruct (vehicleTypeOf s) as [v|] eqn:E; [|tauto].
        apply in_app_iff in H as [H|[<-|[]]]; [tauto|].
        right. exists s, v. simpl. tauto.
      * right. exists step, v. simpl. tauto.
    + intros [H|(step & v & [<-|Hin] & Hv & Hn)].
      * left. destruct (vehicleTypeOf s); [apply in_app_iff|]; tauto.
      * left. rewrite Hv. apply in_app_iff. right. simpl. tauto.
      * right. now exists step, v.
Qed.

Lemma getTransitTypesFromResponse_In leg name :
  In name (getTransitTypesFromResponse leg)
  <-> exists step v, In step (stepsOf leg) /\ vehicleTypeOf step = Some v
                     /\ transitTypeOf v = name.
Proof.
  destruct leg as [[[steps|]]|]; cbn [getTransitTypesFromResponse stepsOf RoutePlanner.steps];
    try (split; [intros []|intros (? & ? & [] & _)]).
  rewrite unique_In.
  change (In name (fold_left push steps [])
          <-> (exists step v, In step steps /\ vehicleTypeOf step = Some v
                              /\ transitTypeOf v = name)).
  rewrite pushed_In. simpl. tauto.
Qed.

Lemma getTransitTypesFromResponse_NoDup leg :
  NoDup (getTransitTypesFromResponse leg).
Proof.
  destruct leg as [[[steps|]]|]; cbn [getTransitTypesFromResponse RoutePlanner.steps];
    try constructor.
  apply unique_NoDup.
Qed.

(** Of the names of vehicle kinds only "Train" denotes rail. *)
Lemma transitTypeOf_rail v :
  (includes "train" (toLowerCase (transitTypeOf v))
   || includes "rail" (toLowerCase (transitTypeOf v))) = true
  <-> v = RAIL.
Proof. destruct v; split; intros H; try discriminate; reflexivity. Qed.

End TransitTypes.

(** The vehicle kinds of a route have no duplicates and are the names of
    the vehicle types of its transit steps.  One of them denotes rail
    exactly when a transit step has the vehicle type RAIL (every type that
    the component does not name counts as "Transit"): the fare is then the
    fare by distance, and the fare by duration otherwise. *)
Theorem getTransitTypesFromResponse_rail (ToString_other : Q -> string)
    (leg : option RoutePlanner.Leg) :
  let transitTypes := RoutePlanner.getTransitTypesFromResponse leg in
  let fare := Routing.calculatePublicTransportCost ToString_other in
  NoDup transitTypes
  /\ (forall name, In name transitTypes
        <-> exists step v, In step (stepsOf leg)
              /\ vehicleTypeOf step = Some v
              /\ RoutePlanner.transitTypeOf v = name)
  /\ (Routing.hasTrainService transitTypes = true <-> byRail leg)
  /\ (forall distance durationMinutes,
        (byRail leg ->
         fare distance durationMinutes transitTypes
         = Fmt.ToString ToString_other (Math_round (distance * fin 1.5)%js)
           ++ " CZK")
        /\ (~ byRail leg ->
            fare distance durationMinutes transitTypes
            = if (durationMinutes <? fin 30)%js then "30 CZK"
              else if (durationMinutes <=? fin 90)%js then "40 CZK"
              else "120 CZK")).
Proof.
  intros transitTypes fare.
  assert (R : Routing.hasTrainService transitTypes = true <-> byRail leg).
  { unfold Routing.hasTrainService, byRail, transitTypes.
    rewrite existsb_exists. split.
    - intros (name & Hin & H).
      apply getTransitTypesFromResponse_In in Hin as (step & v & Hs & Hv & <-).
      apply transitTypeOf_rail in H. subst. now exists step.
    - intros (step & Hs & Hv). exists "Train". split; [|reflexivity].
      apply getTransitTypesFromResponse_In.
      now exists step, RoutePlanner.RAIL. }
  split; [apply getTransitTypesFromResponse_NoDup|].
  split; [apply getTransitTypesFromResponse_In|].
  split; [exact R|].
  intros distance durationMinutes.
  unfold fare, Routing.calculatePublicTransportCost. split; intros H.
  - apply R in H. now rewrite H.
  - destruct (Routing.hasTrainService transitTypes) eqn:E; [|reflexivity].
    elim H. now apply R.
Qed.

(* ================================================================= *)
(** ** Saving a trip *)

Section SavedTrips.
Import SaveTrip.
Local Open Scope list_scope.

Lemma POST_Trips isoNow tripData files old :
  allTripsFile files = Some (Trips old) ->
  POST isoNow (Some tripData) files
  = ({| dataDir := true;
        lastTripFile := Some (setTimestamp tripData isoNow);
        allTripsFile := Some (Trips (old ++ [setTimestamp tripData isoNow])) |},
     {| success := true; status := 200; tripId := Some isoNow |}).
Proof. intros H. unfold POST. cbn [allTripsFile]. now rewrite H. Qed.

Lemma serve_Trips requests : forall files old,
  allTripsFile files = Some (Trips old) ->
  allTripsFile (serve requests files)
  = Some (Trips (old ++ map logged requests)).
Proof.
  induction requests as [|[isoNow tripData] requests IH]; intros files old H.
  - cbn [serve fold_left map]. now rewrite app_nil_r.
  - cbn [serve fold_left map fst snd].
    rewrite (POST_Trips isoNow tripData files old H). cbn [fst].
    change (fold_left _ requests ?f) with (serve requests f).
    rewrite (IH _ (old ++ [setTimestamp tripData isoNow])) by reflexivity.
    now rewrite <- app_assoc.
Qed.

End SavedTrips.

(** A request whose log file holds a list of trips, or does not exist yet,
    succeeds: the trip, stamped with the time of the server, is added at
    the end of the list, becomes the last trip, and its time stamp is the
    identifier returned.  A sequence of such requests adds its trips in the
    order of arrival and leaves every earlier entry in place. *)
Theorem POST_appends (isoNow : string) (tripData : TripRecord.t)
    (files : SaveTrip.Files) :
  let saved := SaveTrip.setTimestamp tripData isoNow in
  let result := SaveTrip.POST isoNow (Some tripData) files in
  (forall old,
      SaveTrip.allTripsFile files = Some (SaveTrip.Trips old) ->
      SaveTrip.allTripsFile (fst result)
      = Some (SaveTrip.Trips (old ++ [saved]))
      /\ SaveTrip.lastTripFile (fst result) = Some saved
      /\ snd result
         = {| SaveTrip.success := true; SaveTrip.status := 200;
              SaveTrip.tripId := Some isoNow |})
  /\ (SaveTrip.allTripsFile files = None ->
      SaveTrip.allTripsFile (fst result) = Some (SaveTrip.Trips [saved])
      /\ SaveTrip.lastTripFile (fst result) = Some saved
      /\ snd result
         = {| SaveTrip.success := true; SaveTrip.status := 200;
              SaveTrip.tripId := Some isoNow |})
  /\ (forall requests old,
        SaveTrip.allTripsFile files = Some (SaveTrip.Trips old) ->
        SaveTrip.allTripsFile (serve requests files)
        = Some (SaveTrip.Trips (old ++ map logged requests))).
Proof.
  intros saved result. split; [|split].
  - intros old H. unfold result. now rewrite (POST_Trips _ _ _ old H).
  - intros H. unfold result, SaveTrip.POST. cbn [SaveTrip.allTripsFile].
    now rewrite H.
  - intros requests old H. now apply serve_Trips.
Qed.

(** What the handler does when something is wrong.  A body that cannot be
    read leaves the files untouched and is answered with status 500.  A log
    file that holds a value other than a list is left as it is and the
    request is answered with status 500, although the trip has already
    been written as the last trip.  A log file whose text cannot be parsed
    is replaced by a list of the new trip alone, and the request succeeds.
    The time stamp sent by the client is never kept. *)
Theorem POST_failures (isoNow : string) (files : SaveTrip.Files) :
  SaveTrip.POST isoNow None files = (files, SaveTrip.failure)
  /\ (forall tripData,
        SaveTrip.allTripsFile files = Some SaveTrip.NotAnArray ->
        let result := SaveTrip.POST isoNow (Some tripData) files in
        snd result = SaveTrip.failure
        /\ SaveTrip.allTripsFile (fst result) = Some SaveTrip.NotAnArray
        /\ SaveTrip.lastTripFile (fst result)
           = Some (SaveTrip.setTimestamp tripData isoNow))
  /\ (forall tripData,
        SaveTrip.allTripsFile files = Some SaveTrip.Unparsable ->
        let result := SaveTrip.POST isoNow (Some tripData) files in
        SaveTrip.success (snd result) = true
        /\ SaveTrip.allTripsFile (fst result)
           = Some (SaveTrip.Trips [SaveTrip.setTimestamp tripData isoNow]))
  /\ (forall tripData stamp,
        SaveTrip.POST isoNow (Some (SaveTrip.setTimestamp tripData stamp)) files
        = SaveTrip.POST isoNow (Some tripData) files).
Proof.
  split; [reflexivity|]. split; [|split].
  - intros tripData H result. unfold result, SaveTrip.POST.
    cbn [SaveTrip.allTripsFile]. now rewrite H.
  - intros tripData H result. unfold result, SaveTrip.POST.
    cbn [SaveTrip.allTripsFile]. now rewrite H.
  - reflexivity.
Qed.

(* ================================================================= *)
(** ** The total cost of a list of trips *)

Section TotalCost.
Import CarCost.
Local Open Scope js_scope.
Local Open Scope list_scope.

Lemma reduced_fin q : reduced (fin q).
Proof. apply Qred_complete, Qred_correct. Qed.

Lemma reduced_add x y : reduced (x + y).
Proof. destruct x, y; try exact I. apply reduced_fin. Qed.

Lemma add_zero_r x y : reduced x -> JS.eqb y zero = true -> x + y = x.
Proof.
  destruct y as [| | |b]; try discriminate.
  intros R E.
  assert (Hb : (b == 0)%Q) by (revert E; js_order).
  destruct x as [| | |a]; try reflexivity.
  cbn [JS.add reduced] in *. unfold fin. f_equal.
  rewrite <- R at 2. apply Qred_complete. rewrite Hb. ring.
Qed.

Variable cars : list Car.
Variable prices : FuelPrices.

Let cost := fun t => getCarCost t cars prices.
Let priced := fun t => negb (JS.eqb (cost t) zero).

Lemma total_from_priced trips : forall sum,
  reduced sum ->
  fold_left (fun sum t => sum + cost t) (filter priced trips) sum
  = fold_left (fun sum t => sum + cost t) trips sum.
Proof.
  induction trips as [|t trips IH]; intros sum R; [reflexivity|].
  cbn [filter fold_left]. unfold priced at 1.
  destruct (JS.eqb (cost t) zero) eqn:E; cbn [negb].
  - rewrite (add_zero_r sum (cost t)) by assumption. now apply IH.
  - cbn [fold_left]. apply IH, reduced_add.
Qed.

Lemma total_unpriced trips : forall sum,
  reduced sum ->
  (forall t, In t trips -> cost t = zero) ->
  fold_left (fun sum t => sum + cost t) trips sum = sum.
Proof.
  induction trips as [|t trips IH]; intros sum R H; [reflexivity|].
  cbn [fold_left]. rewrite (H t) by (now left).
  rewrite (add_zero_r sum zero) by (assumption || reflexivity).
  apply IH; [assumption|]. intros u Hu. apply H. now right.
Qed.

End TotalCost.

(** The total cost counts a trip without a cost (an unknown car, an
    unreadable distance or efficiency, a fuel without a price) as 0: the
    total is that of the trips with a cost, it is 0 when no trip has one,
    as with an empty list of cars, and a further trip adds its own cost. *)
Theorem getTotalCost_counts_priced_trips
    (trips : list CarCost.Trip) (cars : list CarCost.Car)
    (prices : CarCost.FuelPrices) :
  let priced := fun t => negb (JS.eqb (CarCost.getCarCost t cars prices) zero) in
  CarCost.getTotalCost (filter priced trips) cars prices
  = CarCost.getTotalCost trips cars prices
  /\ ((forall t, In t trips -> CarCost.getCarCost t cars prices = zero) ->
      CarCost.getTotalCost trips cars prices = zero)
  /\ CarCost.getTotalCost trips [] prices = zero
  /\ (forall t,
        CarCost.getTotalCost (trips ++ [t]) cars prices
        = (CarCost.getTotalCost trips cars prices
           + CarCost.getCarCost t cars prices)%js).
Proof.
  intros priced. unfold CarCost.getTotalCost. split; [|split; [|split]].
  - now apply total_from_priced.
  - intros H. now apply total_unpriced.
  - apply total_unpriced; [reflexivity|]. intros t _.
    unfold CarCost.getCarCost, CarCost.findCar. cbn [find].
    now destruct (_ || _).
  - intros t. now rewrite fold_left_app.
Qed.

(** The cost per kilometre of a finite total is never NaN, whatever the
    distance: it is 0 when the distance is not positive (0, negative or
    NaN), and not negative when the total is not. *)
Theorem getCostPerKm_never_NaN (totalCost : Q) (totalDistanceKm : number) :
  isNaN (CarCost.getCostPerKm (Fin totalCost) totalDistanceKm) = false
  /\ ((0 <= totalCost)%Q ->
      (zero <= CarCost.getCostPerKm (Fin totalCost) totalDistanceKm)%js)
  /\ ((totalDistanceKm >? zero)%js = false ->
      CarCost.getCostPerKm (Fin totalCost) totalDistanceKm = zero).
Proof.
  unfold CarCost.getCostPerKm.
  split; [|split; [|now intros ->]].
  - destruct totalDistanceKm as [| | |d]; try reflexivity.
    destruct (Fin d >? zero)%js eqn:E; [|reflexivity].
    assert (Hd : (0 < d)%Q) by (revert E; js_order).
    cbn [JS.div].
    assert (N : Qeq_bool d 0 = false).
    { destruct (Qeq_bool d 0) eqn:Z; [|reflexivity].
      apply Qeq_bool_eq in Z. lra. }
    now rewrite N.
  - intros H. destruct totalDistanceKm as [| | |d]; try reflexivity.
    destruct (Fin d >? zero)%js eqn:E; [|reflexivity].
    assert (Hd : (0 < d)%Q) by (revert E; js_order).
    cbn [JS.div].
    assert (N : Qeq_bool d 0 = false).
    { destruct (Qeq_bool d 0) eqn:Z; [|reflexivity].
      apply Qeq_bool_eq in Z. lra. }
    rewrite N.
    assert (P : (0 <= totalCost / d)%Q).
    { apply Qle_shift_div_l; [assumption|]. now rewrite Qmult_0_l. }
    clear N. revert P. generalize (totalCost / d)%Q as x. intros x P.
    js_order.
Qed.

(* ================================================================= *)
(** ** Labels that do not read as a number *)

Section UnreadableLabels.
Import Dashboard.
Local Open Scope string_scope.
Local Open Scope js_scope.

Lemma span_spec p s :
  let '(a, b) := span p s in
  s = a ++ b /\ allChars p a = true /\ headIn p b = false
  /\ headIn p a = headIn p s.
Proof.
  induction s as [|c r IH]; [now cbn|].
  cbn [span]. destruct (p c) eqn:Hc.
  - destruct (span p r) as [a b]. destruct IH as (-> & Ha & Hb & _).
    cbn. now rewrite Hc.
  - cbn. now rewrite Hc.
Qed.

(** A point that no digit follows does not begin a number. *)
Lemma parseFloat_point_alone r :
  headIn isDigit r = false -> parseFloat (String "." r) = NaN.
Proof.
  intros H.
  assert (S : span isDigit r = ("", r)) by (apply (span_run isDigit "" r); auto).
  unfold parseFloat. rewrite skipSpace_ascii by reflexivity.
  change (parseUnsigned (String "." r) = NaN).
  unfold parseUnsigned.
  change (startsWith "Infinity" (String "." r)) with false.
  change (span isDigit (String "." r)) with ("", String "." r).
  cbv iota. now rewrite S.
Qed.

(** The first run of digits and dots of a label, when it begins with a
    point that no digit follows, is read as NaN. *)
Lemma matchRun_point_alone pre rest :
  allChars notDigitOrDot pre = true -> headIn isDigit rest = false ->
  exists run,
    matchRun isDigitOrDot (fun _ => true) "" (pre ++ "." ++ rest) = Some run
    /\ parseFloat run = NaN.
Proof.
  intros Hpre Hrest.
  pose proof (span_spec isDigitOrDot rest) as S.
  destruct (span isDigitOrDot rest) as [a b].
  destruct S as (-> & Ha & Hb & Hh).
  exists (String "." a). split.
  - change (pre ++ "." ++ a ++ b) with (pre ++ String "." (a ++ b)).
    change (String "." (a ++ b)) with (String "." a ++ b).
    apply matchRun_first; auto. discriminate.
  - apply parseFloat_point_alone.
    destruct a as [|c a']; [reflexivity|].
    destruct b as [|d b']; cbn in Hrest |- *; exact Hrest.
Qed.

Lemma parseCO2_point_alone pre rest :
  allChars notDigitOrDot pre = true -> headIn isDigit rest = false ->
  parseCO2 (pre ++ "." ++ rest) = NaN.
Proof.
  intros Hpre Hrest.
  destruct (matchRun_point_alone pre rest Hpre Hrest) as (run & E & N).
  unfold parseCO2. rewrite E, N. now destruct (includes "kg" _).
Qed.

Lemma parseCost_point_alone pre rest :
  allChars notDigitOrDot pre = true -> headIn isDigit rest = false ->
  parseCost (pre ++ "." ++ rest) = NaN.
Proof.
  intros Hpre Hrest.
  destruct (matchRun_point_alone pre rest Hpre Hrest) as (run & E & N).
  unfold parseCost. rewrite E, N. now destruct (includes "$" _).
Qed.

(** A sum with a NaN term is NaN. *)
Lemma sumOver_NaN (f : TripRecord.t -> number) ts :
  (exists t, In t ts /\ f t = NaN) -> sumOver f ts = NaN.
Proof.
  unfold sumOver. generalize zero.
  induction ts as [|t ts IH]; intros acc (u & Hin & Hu); [destruct Hin|].
  cbn [fold_left]. destruct Hin as [<-|Hin].
  - rewrite Hu. replace (acc + NaN) with NaN by now destruct acc.
    clear. induction ts as [|t ts IH]; [reflexivity|]. exact IH.
  - apply IH. now exists u.
Qed.

End UnreadableLabels.

(** A CO2 or cost label whose first digit or dot is a dot that no digit
    follows, as in "n.a.", is read as NaN.  One such CO2 label makes the
    total CO2 of the fleet and the trees to offset NaN, the carbon footprint
    "High", and the emission level "Very High" when the total distance is
    positive; one such cost label makes the total cost NaN. *)
Theorem metrics_unreadable_labels :
  (forall pre rest,
      allChars notDigitOrDot pre = true -> headIn isDigit rest = false ->
      Dashboard.parseCO2 (pre ++ "." ++ rest) = NaN
      /\ Dashboard.parseCost (pre ++ "." ++ rest) = NaN)
  /\ Dashboard.parseCO2 "n.a." = NaN
  /\ (forall ts,
        (exists t, In t ts
           /\ Dashboard.parseCO2 (TripRecord.co2Emissions t) = NaN) ->
        let m := Dashboard.metrics ts in
        Dashboard.totalCO2kg m = NaN
        /\ Dashboard.treesToOffset m = NaN
        /\ Dashboard.carbonFootprintRating m = "High"
        /\ Dashboard.emissionLevel m
           = if (Dashboard.totalDistance m >? zero)%js then "Very High"
             else "Excellent")
  /\ (forall ts,
        (exists t, In t ts
           /\ Dashboard.parseCost (TripRecord.cost t) = NaN) ->
        Dashboard.totalCostCZK (Dashboard.metrics ts) = NaN).
Proof.
  split; [intros pre rest Hpre Hrest; split;
          [now apply parseCO2_point_alone|now apply parseCost_point_alone]|].
  split; [reflexivity|]. split.
  - intros ts H m.
    assert (T : Dashboard.totalCO2kg m = NaN).
    { unfold m. destruct (metrics_totals ts) as (_ & _ & -> & _).
      now apply sumOver_NaN. }
    destruct ts as [|t ts]; [destruct H as (? & [] & _)|].
    destruct (metrics_ratings_eq t ts) as (R1 & _ & R3).
    destruct (metrics_derived (t :: ts)) as (_ & D2 & _ & _ & D5).
    fold m in R1, R3, D2, D5.
    rewrite R1, R3, D2, D5, T. repeat split.
    now destruct (Dashboard.totalDistance m >? zero)%js.
  - intros ts H. destruct (metrics_totals ts) as (_ & _ & _ & -> & _).
    now apply sumOver_NaN.
Qed.

Section WholeMinutes.
Import Dashboard.
Local Open Scope string_scope.
Local Open Scope js_scope.

Lemma digitsValue_nonneg s : forall acc,
  allChars isDigit s = true -> (0 <= acc)%Z -> (0 <= digitsValue acc s)%Z.
Proof.
  induction s as [|c r IH]; intros acc H A; [exact A|].
  cbn [allChars] in H. apply andb_true_iff in H as [Hc Hr].
  cbn [digitsValue]. apply IH; [assumption|].
  unfold isDigit in Hc. apply andb_true_iff in Hc as [L _].
  apply Nat.leb_le in L. lia.
Qed.

Lemma length_append a b :
  String.length (a ++ b) = (String.length a + String.length b)%nat.
Proof. induction a as [|c a IH]; [reflexivity|]. cbn. now rewrite IH. Qed.

Lemma digitsValue_bound s : forall acc,
  allChars isDigit s = true -> (0 <= acc)%Z ->
  (digitsValue acc s < (acc + 1) * 10 ^ Z.of_nat (String.length s))%Z.
Proof.
  induction s as [|c r IH]; intros acc H A.
  - cbn. lia.
  - cbn [allChars] in H. apply andb_true_iff in H as [Hc Hr].
    cbn [digitsValue String.length].
    unfold isDigit in Hc. apply andb_true_iff in Hc as [L U].
    apply Nat.leb_le in L, U.
    assert (P : (0 < 10 ^ Z.of_nat (String.length r))%Z)
      by (apply Z.pow_pos_nonneg; lia).
    specialize (IH (10 * acc + (Z.of_nat (code c) - 48))%Z Hr ltac:(lia)).
    rewrite Nat2Z.inj_succ, Z.pow_succ_r by lia. nia.
Qed.

(** The capture of [(\d+)] before a continuation, or nothing, as a natural
    number with no more digits than the label has characters. *)
Lemma captured_natural k s :
  exists n, (0 <= n < 10 ^ Z.of_nat (String.length s))%Z
    /\ match matchRun isDigit k "" s with
       | Some m => parseInt m
       | None => zero
       end = of_Z n.
Proof.
  assert (P : (0 < 10 ^ Z.of_nat (String.length s))%Z)
    by (apply Z.pow_pos_nonneg; lia).
  destruct (matchRun isDigit k "" s) as [m|] eqn:E.
  - apply matchRun_sound in E as (pre & post & Heq & Hm & _); [|reflexivity].
    exists (digitsValue 0 m). split; [|reflexivity].
    split; [apply digitsValue_nonneg; [assumption|lia]|].
    pose proof (digitsValue_bound m 0 Hm ltac:(lia)) as B.
    assert (L : (String.length m <= String.length s)%nat).
    { cbn [append] in Heq. rewrite Heq, !length_append. lia. }
    assert (M : (10 ^ Z.of_nat (String.length m)
                 <= 10 ^ Z.of_nat (String.length s))%Z)
      by (apply Z.pow_le_mono_r; lia).
    lia.
  - exists 0%Z. split; [lia|reflexivity].
Qed.

Lemma parseDuration_whole_minutes duration :
  exists minutes,
    (0 <= minutes < 61 * 10 ^ Z.of_nat (String.length duration))%Z
    /\ parseDuration duration = of_Z (60 * minutes).
Proof.
  unfold parseDuration.
  destruct (captured_natural (startsWith "h") duration) as (h & Hh & ->).
  destruct (captured_natural
              (fun s => startsWith "min" (skipSpace s)) duration)
    as (m & Hm & ->).
  exists (h * 60 + m)%Z. split; [lia|].
  change (fin 60) with (of_Z 60).
  rewrite !mul_of_Z, add_of_Z, mul_of_Z. f_equal. lia.
Qed.

Lemma parseDuration_short duration :
  (String.length duration <= 9)%nat ->
  exists minutes,
    (0 <= minutes < 61 * 10 ^ 9)%Z
    /\ parseDuration duration = of_Z (60 * minutes).
Proof.
  intros L. destruct (parseDuration_whole_minutes duration) as (n & Hn & E).
  exists n. split; [|exact E].
  assert (M : (10 ^ Z.of_nat (String.length duration) <= 10 ^ 9)%Z)
    by (apply Z.pow_le_mono_r; lia).
  lia.
Qed.

Lemma sum_whole_minutes ts : forall a,
  (0 <= a)%Z ->
  (forall t, In t ts -> (String.length (TripRecord.duration t) <= 9)%nat) ->
  exists minutes,
    (0 <= minutes <= a + 61 * 10 ^ 9 * Z.of_nat (List.length ts))%Z
    /\ fold_left (fun sum trip => sum + parseDuration (TripRecord.duration trip))
                 ts (of_Z (60 * a))
       = of_Z (60 * minutes).
Proof.
  induction ts as [|t ts IH]; intros a Ha Hs.
  - exists a. split; [cbn; lia|reflexivity].
  - cbn [fold_left].
    destruct (parseDuration_short (TripRecord.duration t))
      as (b & Hb & ->); [apply Hs; now left|].
    rewrite add_of_Z. replace (60 * a + 60 * b)%Z with (60 * (a + b))%Z by lia.
    destruct (IH (a + b)%Z) as (n & Hn & E);
      [lia|intros u Hu; apply Hs; now right|].
    exists n. split; [|exact E].
    cbn [List.length]. rewrite Nat2Z.inj_succ. lia.
Qed.

Lemma sum_any_minutes ts : forall a,
  (0 <= a)%Z ->
  exists minutes,
    (0 <= minutes)%Z
    /\ fold_left (fun sum trip => sum + parseDuration (TripRecord.duration trip))
                 ts (of_Z (60 * a))
       = of_Z (60 * minutes).
Proof.
  induction ts as [|t ts IH]; intros a Ha; [now exists a|].
  cbn [fold_left].
  destruct (parseDuration_whole_minutes (TripRecord.duration t))
    as (b & Hb & ->).
  rewrite add_of_Z. replace (60 * a + 60 * b)%Z with (60 * (a + b))%Z by lia.
  apply IH. lia.
Qed.

Lemma leb_of_Z a b : (of_Z a <=? of_Z b) = (a <=? b)%Z.
Proof.
  unfold JS.leb. rewrite compare_of_Z. unfold Z.leb. now destruct (a ?= b)%Z.
Qed.

End WholeMinutes.

(** A duration label is never read as NaN or as a negative number, nor is
    the total duration; a label of at most 9 characters is read as a whole
    number of minutes, in seconds, and so is the total duration of at most
    1000 trips with such labels.  The distance of a label is never NaN. *)
Theorem totalDurationSeconds_whole_minutes :
  (forall duration,
      isNaN (Dashboard.parseDuration duration) = false
      /\ (zero <= Dashboard.parseDuration duration)%js)
  /\ (forall ts,
        isNaN (Dashboard.totalDurationSeconds (Dashboard.metrics ts)) = false
        /\ (zero <= Dashboard.totalDurationSeconds (Dashboard.metrics ts))%js)
  /\ (forall duration,
        (String.length duration <= 9)%nat ->
        exists minutes, (0 <= minutes < 61 * 10 ^ 9)%Z
          /\ Dashboard.parseDuration duration = of_Z (60 * minutes))
  /\ (forall ts,
        (List.length ts <= 1000)%nat ->
        (forall t, In t ts ->
                   (String.length (TripRecord.duration t) <= 9)%nat) ->
        exists minutes, (0 <= minutes < 10 ^ 14)%Z
          /\ Dashboard.totalDurationSeconds (Dashboard.metrics ts)
             = of_Z (60 * minutes))
  /\ (forall distance, isNaN (Dashboard.parseDistance distance) = false).
Proof.
  split; [|split; [|split; [|split]]].
  - intros duration.
    destruct (parseDuration_whole_minutes duration) as (n & Hn & ->).
    split; [reflexivity|]. change zero with (of_Z 0).
    rewrite leb_of_Z. apply Z.leb_le. lia.
  - intros ts. destruct (metrics_totals ts) as (_ & -> & _).
    destruct (sum_any_minutes ts 0) as (n & Hn & E); [lia|].
    unfold Dashboard.sumOver. change zero with (of_Z (60 * 0)) at 1 3.
    rewrite E. split; [reflexivity|]. change zero with (of_Z 0).
    rewrite leb_of_Z. apply Z.leb_le. lia.
  - apply parseDuration_short.
  - intros ts L Hs. destruct (metrics_totals ts) as (_ & -> & _).
    destruct (sum_whole_minutes ts 0) as (n & Hn & E); [lia|exact Hs|].
    exists n. split; [lia|exact E].
  - intros distance. unfold Dashboard.parseDistance, or_else.
    destruct (truthy (parseFloat distance)) eqn:E; [|reflexivity].
    now apply truthy_not_NaN.
Qed.

(* ================================================================= *)
(** ** The duration shown by the dashboard *)

Section ShownDuration.
Local Open Scope string_scope.

Variable ToString_other : Q -> string.

Let formatDuration := Controls.formatDuration ToString_other.

Lemma Controls_formatDuration_of_Z s :
  (0 <= s < 10 ^ 21)%Z ->
  formatDuration (of_Z s)
  = if (0 <? s / 3600)%Z
    then ofZ (s / 3600) ++ "h " ++ ofZ (s mod 3600 / 60) ++ "m"
    else ofZ (s mod 3600 / 60) ++ "m".
Proof.
  intros H. unfold formatDuration, Controls.formatDuration.
  change (fin 3600) with (of_Z 3600). change (fin 60) with (of_Z 60).
  change zero with (of_Z 0).
  rewrite rem_of_Z, !Math_floor_div_of_Z, gtb_of_Z by lia.
  assert (Hq : (0 <= s / 3600 <= s)%Z).
  { split; [apply Z.div_pos; lia|]. apply Z.div_le_upper_bound; lia. }
  assert (Hr : (0 <= s mod 3600 < 3600)%Z) by (apply Z.mod_pos_bound; lia).
  assert (Hm : (0 <= s mod 3600 / 60 < 60)%Z).
  { split; [apply Z.div_pos; lia|]. apply Z.div_lt_upper_bound; lia. }
  rewrite !ToString_of_Z by lia.
  reflexivity.
Qed.

End ShownDuration.

(** The dashboard shows a duration of less than 10^15 whole seconds as its
    hours, when there are any, and its minutes below 60, dropping the
    remaining seconds.  A whole number of minutes is shown exactly. *)
Theorem formatDuration_hours_minutes (ToString_other : Q -> string) :
  let formatDuration := Controls.formatDuration ToString_other in
  (forall seconds,
      (0 <= seconds < 10 ^ 15)%Z ->
      exists hours minutes,
        (0 <= hours)%Z /\ (0 <= minutes < 60)%Z
        /\ (hours * 3600 + minutes * 60 <= seconds
            < hours * 3600 + minutes * 60 + 60)%Z
        /\ formatDuration (of_Z seconds)
           = if (0 <? hours)%Z
             then ofZ hours ++ "h " ++ ofZ minutes ++ "m"
             else ofZ minutes ++ "m")
  /\ (forall total,
        (0 <= total)%Z -> (60 * total < 10 ^ 15)%Z ->
        formatDuration (of_Z (60 * total))
        = if (60 <=? total)%Z
          then ofZ (total / 60) ++ "h " ++ ofZ (total mod 60) ++ "m"
          else ofZ total ++ "m")
  /\ formatDuration (of_Z 3725) = "1h 2m"
  /\ formatDuration (of_Z 59) = "0m".
Proof.
  intros formatDuration. split; [|split; [|split; reflexivity]].
  - intros s H. exists (s / 3600)%Z, (s mod 3600 / 60)%Z.
    assert (Hq : (0 <= s / 3600)%Z) by (apply Z.div_pos; lia).
    assert (Hr : (0 <= s mod 3600 < 3600)%Z) by (apply Z.mod_pos_bound; lia).
    pose proof (Z.div_mod s 3600). pose proof (Z.div_mod (s mod 3600) 60).
    assert (Hr' : (0 <= (s mod 3600) mod 60 < 60)%Z)
      by (apply Z.mod_pos_bound; lia).
    assert (Hm : (0 <= s mod 3600 / 60 < 60)%Z).
    { split; [apply Z.div_pos; lia|]. apply Z.div_lt_upper_bound; lia. }
    repeat split; try lia.
    apply Controls_formatDuration_of_Z. lia.
  - intros total H0 H. unfold formatDuration.
    rewrite Controls_formatDuration_of_Z by lia.
    replace (60 * total / 3600)%Z with (total / 60)%Z.
    + replace (60 * total mod 3600 / 60)%Z with (total mod 60)%Z.
      * destruct (Z.ltb_spec 0 (total / 60)), (Z.leb_spec 60 total);
          try reflexivity.
        -- exfalso. assert (total / 60 = 0)%Z by (apply Z.div_small; lia). lia.
        -- exfalso. assert (1 <= total / 60)%Z
             by (apply Z.div_le_lower_bound; lia). lia.
        -- now rewrite Z.mod_small by lia.
      * pose proof (Z.div_mod total 60). pose proof (Z.mod_pos_bound total 60).
        Z.div_mod_to_equations. lia.
    + Z.div_mod_to_equations. lia.
Qed.

(* ================================================================= *)
(** ** The car of a trip *)

Section CarLookup.
Import CarCost.





End CarLookup.


